(** * Energy forecasting ensemble: a shallow embedding and its properties

    This development embeds the numeric core of the energy forecasting
    backend (module [forecasting_algorithms.py], class
    [EnergyForecastingAlgorithms], and the entry point [enhanced_prediction]
    of [simple_main.py]) and proves the properties stated about it.

    Number model.  The Python code computes on IEEE binary64 values through
    numpy.  Here every float is a real number of [R]: arithmetic is exact,
    rounding error and the special values (nan, inf) are not represented.
    Python [int] columns are [Z].  Python lists and numpy arrays are [list];
    dictionaries whose iteration order the code relies on are association
    lists in insertion order.

    External code.  The least-squares solver that scikit-learn's
    [LinearRegression] calls is not part of the repository: the regression
    forecaster and everything built on it take the solver as a parameter
    ([lstsq]), and the one property that needs more than its type assumes
    the solver's contract ([min_norm_least_squares]) on the frame at
    hand.  The library also raises on values that are not finite; since
    real numbers have none, whether it raises is a second parameter of the
    entry point ([sklearn_raises]).

    Binary64.  Where rounding or overflow decides a property, the code's
    own operations are replayed on primitive floats in [Module Binary64]:
    the combiner's weighted sum, and sums whose order numpy chooses, taken
    in every order. *)

From Stdlib Require Import String Reals Lra Lia ZArith Arith PeanoNat Bool List Permutation.
From Stdlib Require Floats.
Import ListNotations.
Open Scope R_scope.
Set Warnings "-inexact-float".

(** ** Python and numpy primitives *)

Module Py.

(** [sum(l)] / [np.sum(l)]. *)
Definition sum (l : list R) : R := fold_right Rplus 0 l.

(** [np.mean(l)]: the sum divided by the number of elements.  On the empty
    list numpy answers nan; the model's value there ([0 / 0]) is never
    relied upon: a statement about [mean] on a possibly empty list only
    asserts that the code returns [mean] of that list, and every statement
    about its value assumes or establishes that the list is not empty. *)
Definition mean (l : list R) : R := sum l / INR (length l).

(** [l[a:b]] for [0 <= a], [0 <= b]. *)
Definition slice (a b : nat) (l : list R) : list R := firstn (b - a) (skipn a l).

(** [l[-n:]]: the last [n] elements, the whole list when it is shorter
    (and also when [n = 0], since [-0] is [0]). *)
Definition last_n (n : nat) (l : list R) : list R :=
  if (n =? 0)%nat then l else skipn (length l - n) l.

(** [l[i::step]]: the elements at positions [i], [i+step], [i+2*step], ... *)
Definition stride (i step : nat) (l : list R) : list R :=
  map (fun k => nth (i + k * step) l 0)
      (seq 0 ((length l - i + (step - 1)) / step)).

(** [l[i] = v] on a list, for [i] in range. *)
Fixpoint set_item (i : nat) (v : R) (l : list R) : list R :=
  match l, i with
  | [], _ => []
  | _ :: t, O => v :: t
  | h :: t, S j => h :: set_item j v t
  end.

(** [l[-i]] for [1 <= i <= len(l)]. *)
Definition from_end (i : nat) (l : list R) : R := nth (length l - i) l 0.

(** [np.diff(l)]: the list of [l[k+1] - l[k]]. *)
Fixpoint diff (l : list R) : list R :=
  match l with
  | a :: ((b :: _) as t) => (b - a) :: diff t
  | _ => []
  end.

(** [np.std(l)]: the population standard deviation. *)
Definition std (l : list R) : R :=
  sqrt (mean (map (fun x => (x - mean l) * (x - mean l)) l)).

(** [max(0, x)]. *)
Definition max0 (x : R) : R := Rmax 0 x.

End Py.

(** ** The algorithm library ([EnergyForecastingAlgorithms]) *)

(** [moving_average(data, window)] *)
Definition moving_average (data : list R) (window : nat) : R :=
  if (length data <? window)%nat then Py.mean data
  else Py.mean (Py.last_n window data).

(** [exponential_smoothing(data, alpha)] *)
Definition exponential_smoothing (data : list R) (alpha : R) : R :=
  match data with
  | [] => 0
  | x0 :: rest =>
      fold_left (fun result value => alpha * value + (1 - alpha) * result) rest x0
  end.

(** The three variables the Holt-Winters loop updates. *)
Record HWState : Type := mkHW {
  hw_level : R;
  hw_trend : R;
  hw_seasonal : list R
}.

(** One iteration of the loop [for i in range(season_length, len(data))]. *)
Definition hw_step (data : list R) (season_length : nat) (alpha beta gamma : R)
    (st : HWState) (i : nat) : HWState :=
  let prev_level := hw_level st in
  let level :=
    alpha * (nth i data 0 - nth (i mod season_length) (hw_seasonal st) 0)
    + (1 - alpha) * (hw_level st + hw_trend st) in
  let trend := beta * (level - prev_level) + (1 - beta) * hw_trend st in
  let seasonal :=
    Py.set_item (i mod season_length)
      (gamma * (nth i data 0 - level)
       + (1 - gamma) * nth (i mod season_length) (hw_seasonal st) 0)
      (hw_seasonal st) in
  mkHW level trend seasonal.

(** The state before the loop. *)
Definition hw_init (data : list R) (season_length : nat) : HWState :=
  let level := Py.mean (Py.slice 0 season_length data) in
  let trend :=
    (Py.mean (Py.slice season_length (2 * season_length) data)
     - Py.mean (Py.slice 0 season_length data)) / INR season_length in
  let seasonal := map (fun i => nth i data 0 - level) (seq 0 season_length) in
  mkHW level trend seasonal.

(** [holt_winters(data, season_length, alpha, beta, gamma)] *)
Definition holt_winters (data : list R) (season_length : nat)
    (alpha beta gamma : R) : R :=
  if (length data <? season_length * 2)%nat then exponential_smoothing data alpha
  else
    let st :=
      fold_left (hw_step data season_length alpha beta gamma)
                (seq season_length (length data - season_length))
                (hw_init data season_length) in
    hw_level st + hw_trend st + nth 0 (hw_seasonal st) 0.

(** The dictionary [seasonal_decomposition_forecast] returns.  The key
    ['trend_direction'] is absent on the short-series path. *)
Record SeasonalResult : Type := mkSeasonal {
  sd_prediction : R;
  sd_trend : R;
  sd_seasonal : R;
  sd_trend_direction : option string
}.

(** The centred moving-average trend, one value per position
    ([start = max(0, i - period//2)], [end = min(n, i + period//2 + 1)]). *)
Definition sd_trend_list (data : list R) (period : nat) : list R :=
  map (fun i =>
         Py.mean (Py.slice (i - period / 2)
                           (Nat.min (length data) (i + period / 2 + 1)) data))
      (seq 0 (length data)).

(** [data_array - trend], element by element. *)
Definition sd_detrended (data : list R) (period : nat) : list R :=
  map (fun p => fst p - snd p) (combine data (sd_trend_list data period)).

(** The seasonal component: [seasonal[i] = mean(detrended[i::period])], or
    [0] when that slice is empty. *)
Definition sd_seasonal_list (data : list R) (period : nat) : list R :=
  map (fun i =>
         let seasonal_values := Py.stride i period (sd_detrended data period) in
         if (0 <? length seasonal_values)%nat then Py.mean seasonal_values else 0)
      (seq 0 period).

(** [seasonal_decomposition_forecast(data, period)] *)
Definition seasonal_decomposition_forecast (data : list R) (period : nat)
    : SeasonalResult :=
  if (length data <? period * 3)%nat then
    mkSeasonal (Py.mean data) 0 0 None
  else
    let trend := sd_trend_list data period in
    let seasonal := sd_seasonal_list data period in
    let next_trend :=
      if (1 <? length trend)%nat
      then Py.from_end 1 trend + (Py.from_end 1 trend - Py.from_end 2 trend)
      else Py.from_end 1 trend in
    let next_seasonal := nth (length data mod period) seasonal 0 in
    let prediction := next_trend + next_seasonal in
    mkSeasonal (Py.max0 prediction) next_trend next_seasonal
      (Some (if (1 <? length trend)%nat
             then if Rlt_dec (Py.from_end 2 trend) (Py.from_end 1 trend)
                  then "increasing"%string else "decreasing"%string
             else "decreasing"%string)).

(** The autoregressive term of [arima_simple]:
    [sum of 0.5 ** i * diff_data[-i] for i in range(1, min(p + 1, len(diff_data) + 1))]. *)
Definition ar_term (p : nat) (diff_data : list R) : R :=
  fold_left (fun ar_prediction i => ar_prediction + 0.5 ^ i * Py.from_end i diff_data)
            (seq 1 (Nat.min (p + 1) (length diff_data + 1) - 1)) 0.

(** The part of [arima_simple] that follows the differencing loop, as a
    function of the raw series and of the differenced one. *)
Definition arima_after_differencing (data diff_data : list R) (p q : nat) : R :=
  if (length diff_data <? Nat.max p q)%nat then Py.from_end 1 data
  else
    let prediction := Py.from_end 1 data + ar_term p diff_data in
    Py.max0 prediction.

(** [arima_simple(data, p, d, q)] *)
Definition arima_simple (data : list R) (p d q : nat) : R :=
  if (length data <? Nat.max p q + d)%nat then Py.mean data
  else arima_after_differencing data (Nat.iter d Py.diff data) p q.

(** ** Data frames and the regression forecaster *)

(** One row of the frame [enhanced_prediction] builds. *)
Record Row : Type := mkRow {
  consumption : R;
  hour : Z;
  day_of_week : Z;
  day_of_year : Z;
  month : Z;
  temperature : R;
  humidity : R
}.

Definition DataFrame : Type := list Row.

(** [features = ['hour', 'day_of_week', 'day_of_year', 'temperature', 'humidity']] *)
Definition features : list string :=
  ["hour"; "day_of_week"; "day_of_year"; "temperature"; "humidity"]%string.

(** The feature vector of a row, in the order of [features]. *)
Definition feature_row (r : Row) : list R :=
  [IZR (hour r); IZR (day_of_week r); IZR (day_of_year r); temperature r; humidity r].

(** [X = df[features].fillna(df[features].mean())].  A [Row] holds a number
    in every cell, so the imputation has nothing to fill. *)
Definition feature_matrix (df : DataFrame) : list (list R) := map feature_row df.

(** [df['consumption'].tolist()] *)
Definition consumption_list (df : DataFrame) : list R := map consumption df.

(** Dot product of two vectors. *)
Definition dot (u v : list R) : R :=
  Py.sum (map (fun p => fst p * snd p) (combine u v)).

(** Column [j] of a matrix given by rows. *)
Definition column (j : nat) (X : list (list R)) : list R :=
  map (fun row => nth j row 0) X.

(** The column means of a matrix with [k] columns. *)
Definition column_means (k : nat) (X : list (list R)) : list R :=
  map (fun j => Py.mean (column j X)) (seq 0 k).

(** [X - X_offset]: every column minus its mean. *)
Definition centre_columns (k : nat) (X : list (list R)) : list (list R) :=
  map (fun row => map (fun p => fst p - snd p) (combine row (column_means k X))) X.

(** [y - y_offset]: the targets minus their mean. *)
Definition centre (y : list R) : list R := map (fun v => v - Py.mean y) y.

(** Residual sum of squares of the linear predictor [w] on [(X, y)]. *)
Definition rss (X : list (list R)) (y w : list R) : R :=
  Py.sum (map (fun p => (snd p - dot (fst p) w) * (snd p - dot (fst p) w))
              (combine X y)).

(** The contract of the least-squares solver behind scikit-learn's
    [LinearRegression.fit] ([scipy.linalg.lstsq]): [w] has one coefficient
    per column, minimises the residual sum of squares, and has the least
    Euclidean norm among the minimisers. *)
Definition min_norm_least_squares (k : nat) (X : list (list R)) (y w : list R)
    : Prop :=
  length w = k /\
  (forall w', length w' = k -> rss X y w <= rss X y w') /\
  (forall w', length w' = k -> rss X y w' <= rss X y w -> dot w w <= dot w' w').

(** scikit-learn's coefficient of determination ([model.score], [r2_score]):
    [1 - rss/tss], with its convention when the targets are constant. *)
Definition r2_score (y y_pred : list R) : R :=
  let numerator :=
    Py.sum (map (fun p => (fst p - snd p) * (fst p - snd p)) (combine y y_pred)) in
  let denominator :=
    Py.sum (map (fun v => (v - Py.mean y) * (v - Py.mean y)) y) in
  if Req_dec_T denominator 0
  then (if Req_dec_T numerator 0 then 1 else 0)
  else 1 - numerator / denominator.

(** A fitted [LinearRegression]. *)
Record LinearModel : Type := mkModel {
  coef_ : list R;
  intercept_ : R
}.

(** The dictionary [linear_regression_forecast] returns.  The key
    ['feature_importance'] is absent on the short-frame path. *)
Record RegressionResult : Type := mkRegression {
  lr_prediction : R;
  lr_confidence : R;
  lr_feature_importance : option (list (string * R))
}.

(** The dictionary [ensemble_forecast] returns. *)
Record EnsembleResult : Type := mkEnsemble {
  ensemble_prediction : R;
  individual_predictions : list (string * R);
  confidence_interval_lower : R;
  confidence_interval_upper : R;
  prediction_variance : R;
  algorithm_weights : list (string * R);
  linear_regression_details : RegressionResult;
  seasonal_analysis : SeasonalResult
}.

(** [d[k]] on a dictionary held as an association list.  Every key the
    code looks up is present; the default stands for the [KeyError] that
    cannot happen. *)
Fixpoint dict_get (d : list (string * R)) (k : string) : R :=
  match d with
  | [] => 0
  | (k', v) :: rest => if String.eqb k k' then v else dict_get rest k
  end.

(** The weight table of [ensemble_forecast]. *)
Definition weights : list (string * R) :=
  [("moving_average", 0.15); ("exponential_smoothing", 0.20);
   ("holt_winters", 0.25); ("linear_regression", 0.20);
   ("seasonal_decomposition", 0.15); ("arima", 0.05)]%string.

(** The same table as the binary64 values the interpreter holds, added
    from left to right starting from [0] as Python's [sum] does, and the
    other computations of the code that are replayed on floats. *)
Module Binary64.
Import PrimFloat.

Definition weights : list float := [0.15; 0.20; 0.25; 0.20; 0.15; 0.05]%float.

Definition sum (l : list float) : float := fold_left add l 0%float.

(** [abs(x - y) <= tol] *)
Definition within (x y tol : float) : bool := leb (abs (sub x y)) tol.

Definition weights_sum_within_tolerance : bool := within (sum weights) 1 1e-9.

(** The weight table of [ensemble_forecast], with its keys. *)
Definition weight_table : list (string * float) :=
  [("moving_average", 0.15); ("exponential_smoothing", 0.20);
   ("holt_winters", 0.25); ("linear_regression", 0.20);
   ("seasonal_decomposition", 0.15); ("arima", 0.05)]%string%float.

(** [d[k]] on a dictionary of floats. *)
Fixpoint dict_get (d : list (string * float)) (k : string) : float :=
  match d with
  | [] => 0%float
  | (k', v) :: rest => if String.eqb k k' then v else dict_get rest k
  end.

(** [sum(predictions[method] * weights[method] for method in predictions)]:
    Python's [sum] starts from [0] and adds the products in the
    dictionary's insertion order. *)
Definition weighted_sum (preds w : list (string * float)) : float :=
  fold_left (fun acc kv => add acc (mul (snd kv) (dict_get w (fst kv)))) preds 0%float.

(** The dictionary [predictions] when the six forecasters all answer
    [c], in the insertion order of [ensemble_forecast]. *)
Definition agreeing_predictions (c : float) : list (string * float) :=
  [("moving_average", c); ("exponential_smoothing", c); ("holt_winters", c);
   ("arima", c); ("linear_regression", c); ("seasonal_decomposition", c)]%string.

(** [min(l)] of a non-empty list of numbers. *)
Definition list_min (l : list float) : float :=
  fold_left (fun m x => if ltb x m then x else m) (tl l) (hd 0%float l).

(** numpy adds the elements of an array in blocks, in an order that
    depends on its length and layout.  [sums_to l s] leaves the order
    open: [s] is the result of adding every element of [l] once, in some
    order and with some grouping, possibly starting from [0]. *)
Inductive sums_to : list float -> float -> Prop :=
  | sum_nil : sums_to [] 0%float
  | sum_one : forall x, sums_to [x] x
  | sum_app : forall l1 l2 s1 s2,
      sums_to l1 s1 -> sums_to l2 s2 -> sums_to (l1 ++ l2) (add s1 s2)
  | sum_perm : forall l l' s, Permutation l l' -> sums_to l s -> sums_to l' s.

(** [float(n)] *)
Definition of_nat (n : nat) : float := of_uint63 (Uint63.of_Z (Z.of_nat n)).

(** [np.mean(l)] returns [m]: a sum of the elements divided by their
    number. *)
Definition mean_returns (l : list float) (m : float) : Prop :=
  exists s, sums_to l s /\ m = div s (of_nat (length l)).

(** [l[-n:]] *)
Definition last_n (n : nat) (l : list float) : list float :=
  if (n =? 0)%nat then l else skipn (length l - n) l.

(** [moving_average(data, window)] returns [m]. *)
Definition moving_average_returns (data : list float) (window : nat) (m : float)
    : Prop :=
  if (length data <? window)%nat then mean_returns data m
  else mean_returns (last_n window data) m.

(** The reading 1e308. *)
Definition huge : float := 1e308.

(** The prediction 13.0, and the binary64 number just below it that the
    combiner returns for six predictions of 13.0. *)
Definition thirteen : float := 13.
Definition below_thirteen : float := 12.999999999999998.

End Binary64.

Section Regression.

(** The numerical solver scikit-learn calls is outside the repository; the
    development is parametric in it.  [lstsq X y] is the coefficient vector
    it returns for the (centred) design matrix [X] and targets [y]. *)
Variable lstsq : list (list R) -> list R -> list R.

(** [LinearRegression().fit(X, y)] with the default [fit_intercept=True]:
    centre the columns and the targets, solve, recover the intercept. *)
Definition LinearRegression_fit (X : list (list R)) (y : list R) : LinearModel :=
  let k := length features in
  let X_offset := column_means k X in
  let y_offset := Py.mean y in
  let coef := lstsq (centre_columns k X) (centre y) in
  mkModel coef (y_offset - dot X_offset coef).

(** [model.predict(row)[0]] *)
Definition predict (m : LinearModel) (row : list R) : R :=
  dot row (coef_ m) + intercept_ m.

(** [model.score(X, y)] *)
Definition score (m : LinearModel) (X : list (list R)) (y : list R) : R :=
  r2_score y (map (predict m) X).

(** [last_row = X.iloc[-1:].copy(); last_row['hour'] = (last_row['hour'] + 1) % 24] *)
Definition next_hour_row (df : DataFrame) : list R :=
  let r := last df (mkRow 0 0 0 0 0 0 0) in
  feature_row (mkRow (consumption r) ((hour r + 1) mod 24)%Z (day_of_week r)
                     (day_of_year r) (month r) (temperature r) (humidity r)).

(** [linear_regression_forecast(df)] *)
Definition linear_regression_forecast (df : DataFrame) : RegressionResult :=
  if (length df <? 10)%nat then
    mkRegression (Py.mean (consumption_list df)) 0.5 None
  else
    let X := feature_matrix df in
    let y := consumption_list df in
    let model := LinearRegression_fit X y in
    let prediction := predict model (next_hour_row df) in
    let confidence := score model X y in
    mkRegression (Py.max0 prediction) confidence
                 (Some (combine features (coef_ model))).

(** The dictionary [predictions] of [ensemble_forecast], in insertion order. *)
Definition predictions (df : DataFrame) : list (string * R) :=
  let consumption_data := consumption_list df in
  [("moving_average", moving_average consumption_data 24);
   ("exponential_smoothing", exponential_smoothing consumption_data 0.3);
   ("holt_winters", holt_winters consumption_data 24 0.3 0.1 0.1);
   ("arima", arima_simple consumption_data 1 1 1);
   ("linear_regression", lr_prediction (linear_regression_forecast df));
   ("seasonal_decomposition",
    sd_prediction (seasonal_decomposition_forecast consumption_data 24))]%string.

(** [sum(predictions[method] * weights[method] for method in predictions)] *)
Definition weighted_sum (preds w : list (string * R)) : R :=
  fold_left (fun acc kv => acc + snd kv * dict_get w (fst kv)) preds 0.

(** [ensemble_forecast(df)] *)
Definition ensemble_forecast (df : DataFrame) : EnsembleResult :=
  let preds := predictions df in
  let ensemble := weighted_sum preds weights in
  let pred_values := map snd preds in
  let prediction_std := Py.std pred_values in
  mkEnsemble ensemble preds
             (ensemble - 1.96 * prediction_std)
             (ensemble + 1.96 * prediction_std)
             prediction_std weights
             (linear_regression_forecast df)
             (seasonal_decomposition_forecast (consumption_list df) 24).

(** The solver meets its contract on the system that
    [linear_regression_forecast] hands it for the frame [df]. *)
Definition solver_exact_on (df : DataFrame) : Prop :=
  let Xc := centre_columns (length features) (feature_matrix df) in
  let yc := centre (consumption_list df) in
  min_norm_least_squares (length features) Xc yc (lstsq Xc yc).

(** ** The entry point ([simple_main.py]) *)

(** The request model [EnergyDataPoint]. *)
Record EnergyDataPoint : Type := mkPoint {
  point_consumption : R;
  point_hour : Z;
  point_dayofweek : Z;
  point_month : Z;
  point_dayofyear : Z
}.

(** The exceptions [enhanced_prediction] raises. *)
Inductive Exception : Type :=
  | ValueError (message : string).

(** The error reported for a series that is too short. *)
Definition InsufficientData : Exception :=
  ValueError "Need at least 10 data points for prediction".

(** The frame built from the request points.  [EnergyDataPoint] has no
    [temperature] or [humidity] attribute, so [getattr] yields the defaults
    [20] and [50]. *)
Definition to_frame (data : list EnergyDataPoint) : DataFrame :=
  map (fun point =>
         mkRow (point_consumption point) (point_hour point)
               (point_dayofweek point) (point_dayofyear point)
               (point_month point) 20 50)
      data.

(** scikit-learn and SciPy validate what they are given and raise
    [ValueError] on a value that is not finite.  Binary64 arithmetic
    produces such values by overflow (the mean of ten readings of 1e308 is
    inf); real numbers have none.  Whether the library calls of
    [linear_regression_forecast] ([fit], [predict], [score]) raise on the
    design matrix and the targets of a frame is therefore a parameter:
    [sklearn_raises X y] is the exception they raise, if any. *)
Variable sklearn_raises : list (list R) -> list R -> option Exception.

(** [enhanced_prediction(data, model_type)].  An exception raised inside
    [ensemble_forecast] is not caught and reaches the caller. *)
Definition enhanced_prediction (data : list EnergyDataPoint) (model_type : string)
    : Exception + EnsembleResult :=
  if (length data <? 10)%nat then inl InsufficientData
  else
    let df := to_frame data in
    match sklearn_raises (feature_matrix df) (consumption_list df) with
    | Some e => inl e
    | None => inr (ensemble_forecast df)
    end.

End Regression.

(** * Specification-side definitions *)

(** The recurrences as the specification words them: the state after [k]
    updates (that is, after the indices 24, ..., 24 + k - 1), with the
    seasonal table a function of the index. *)
Module HWSpec.

Record state : Type := mk {
  level : R;
  trend : R;
  seasonal : nat -> R
}.

Definition initial (x : nat -> R) : state :=
  let level0 := Py.mean (map x (seq 0 24)) in
  let trend0 := (Py.mean (map x (seq 24 24)) - Py.mean (map x (seq 0 24))) / 24 in
  mk level0 trend0 (fun i => x i - level0).

Fixpoint after (x : nat -> R) (k : nat) : state :=
  match k with
  | O => initial x
  | S k' =>
      let st := after x k' in
      let i := (24 + k')%nat in
      let level' :=
        0.3 * (x i - seasonal st (i mod 24)) + (1 - 0.3) * (level st + trend st) in
      let trend' := 0.1 * (level' - level st) + (1 - 0.1) * trend st in
      let seasonal' := fun j =>
        if (j =? i mod 24)%nat
        then 0.1 * (x i - level') + (1 - 0.1) * seasonal st (i mod 24)
        else seasonal st j in
      mk level' trend' seasonal'
  end.

(** The forecast: level plus trend plus the seasonal entry of index 0. *)
Definition forecast (data : list R) : R :=
  let st := after (fun i => nth i data 0) (length data - 24) in
  level st + trend st + seasonal st 0.

End HWSpec.

(** The loop state agrees with the specification's state. *)
Definition hw_agree (st : HWState) (sp : HWSpec.state) : Prop :=
  hw_level st = HWSpec.level sp /\
  hw_trend st = HWSpec.trend sp /\
  length (hw_seasonal st) = 24%nat /\
  forall j, (j < 24)%nat -> nth j (hw_seasonal st) 0 = HWSpec.seasonal sp j.

(** [min(l)] and [max(l)] of a non-empty list. *)
Definition list_min (l : list R) : R := fold_right Rmin (hd 0 l) l.
Definition list_max (l : list R) : R := fold_right Rmax (hd 0 l) l.

(** A row of a well-formed series of [n] points: the calendar fields are
    in their ranges and the weather values are small enough that their sum
    over the series does not overflow. *)
Definition well_formed_row (n : nat) (r : Row) : Prop :=
  (0 <= hour r <= 23)%Z /\ (0 <= day_of_week r <= 6)%Z /\
  (1 <= day_of_year r <= 366)%Z /\ (1 <= month r <= 12)%Z /\
  INR n * Rabs (temperature r) <= 1e308 /\
  INR n * Rabs (humidity r) <= 1e308.

(** What the loop keeps true on a constant series. *)
Definition hw_flat (c : R) (st : HWState) : Prop :=
  hw_level st = c /\ hw_trend st = 0 /\ Forall (fun v => v = 0) (hw_seasonal st).

(** * Inputs used in the instances *)

(** A day at 24 followed by a day without consumption. *)
Definition step_down_series : list R := repeat 24 24 ++ repeat 0 24.

(** Nine hours without consumption followed by one hour at 10. *)
Definition spike_frame : DataFrame :=
  map (fun h => mkRow 0 (Z.of_nat h) 0 1 1 20 50) (seq 0 9)
  ++ [mkRow 10 9 0 1 1 20 50].

(** A solver that always answers the zero vector: the least-squares
    solution of least norm whenever the centred targets are all zero. *)
Definition null_solver (X : list (list R)) (y : list R) : list R :=
  repeat 0 (length features).

(** Library calls that never raise. *)
Definition never_raises (X : list (list R)) (y : list R) : option Exception := None.



Definition ten_points : list EnergyDataPoint :=
  map (fun h => mkPoint 1 (Z.of_nat h) 0 1 1) (seq 0 10).

(** Three days of hourly readings at 5. *)
Definition flat_frame : DataFrame :=
  map (fun h => mkRow 5 (Z.of_nat (h mod 24)) 0 1 1 20 50) (seq 0 72).

(** * The data generator ([dataset_generator.py]) *)

(** [d[k]] on a dictionary of records: [None] stands for [KeyError]. *)
Fixpoint dict_lookup {A : Type} (d : list (string * A)) (k : string) : option A :=
  match d with
  | [] => None
  | (k', v) :: rest => if String.eqb k k' then Some v else dict_lookup rest k
  end.

(** An entry of [self.seasonal_patterns]. *)
Record SeasonPattern : Type := mkPattern {
  pattern_base : R;
  pattern_amplitude : R;
  pattern_peak_hours : list Z
}.

(** [self.seasonal_patterns] *)
Definition seasonal_patterns : list (string * SeasonPattern) :=
  [("winter", mkPattern 100 40 [7; 8; 18; 19; 20]%Z);
   ("spring", mkPattern 70 25 [7; 8; 18; 19]%Z);
   ("summer", mkPattern 85 35 [12; 13; 14; 15; 16]%Z);
   ("autumn", mkPattern 75 30 [7; 8; 18; 19]%Z)]%string.

(** [x in l] on a list of integers. *)
Definition Z_in (x : Z) (l : list Z) : bool := existsb (Z.eqb x) l.

(** [get_season(month)] *)
Definition get_season (month : Z) : string :=
  if Z_in month [12; 1; 2]%Z then "winter"
  else if Z_in month [3; 4; 5]%Z then "spring"
  else if Z_in month [6; 7; 8]%Z then "summer"
  else "autumn".

(** An entry of [season_temps]. *)
Record SeasonTemp : Type := mkTemp {
  temp_base : R;
  temp_range : R
}.

(** [season_temps] of [simulate_temperature]. *)
Definition season_temps : list (string * SeasonTemp) :=
  [("winter", mkTemp 5 10); ("spring", mkTemp 15 8);
   ("summer", mkTemp 25 10); ("autumn", mkTemp 12 8)]%string.

(** [simulate_temperature(dt)], as a function of [dt.month], [dt.hour] and
    of the sampler [uniform low high] that stands for
    [np.random.uniform(low, high)]. *)
Definition simulate_temperature (uniform : R -> R -> R) (month hour : Z)
    : option R :=
  let season := get_season month in
  match dict_lookup season_temps season with
  | None => None
  | Some temp_config =>
      let daily_variation := 5 * sin (2 * PI * (IZR hour - 6) / 24) in
      let base_temp :=
        temp_base temp_config
        + uniform (- temp_range temp_config / 2) (temp_range temp_config / 2) in
      Some (base_temp + daily_variation)
  end.

(** The sampler that always answers the lower end of the interval. *)
Definition lowest_sample (low high : R) : R := low.

(** * Properties *)

(** ** Auxiliary facts on the primitives *)

Lemma length_diff : forall l, length (Py.diff l) = (length l - 1)%nat.
Proof.
  induction l as [|a [|b t] IH]; simpl in *; try reflexivity.
  rewrite IH. lia.
Qed.

Lemma from_end_1_last : forall l, Py.from_end 1 l = last l 0.
Proof.
  unfold Py.from_end. induction l as [|a [|b t] IH]; try reflexivity.
  change (last (a :: b :: t) 0) with (last (b :: t) 0). rewrite <- IH.
  simpl length. replace (S (S (length t)) - 1)%nat with (S (length t - 0)) by lia.
  replace (S (length t) - 1)%nat with (length t - 0)%nat by lia. reflexivity.
Qed.

(** ** Moving average *)

(** C5: with window 24, [moving_average] returns the mean of the whole
    series when it has fewer than 24 points and the mean of its last 24
    values otherwise; on the series 1, 2, ..., 24 it returns 12.5. *)
Theorem moving_average_window_24 :
  (forall data, (length data < 24)%nat -> moving_average data 24 = Py.mean data) /\
  (forall data, (24 <= length data)%nat ->
     moving_average data 24 = Py.mean (skipn (length data - 24) data)) /\
  moving_average [1; 2; 3; 4; 5; 6; 7; 8; 9; 10; 11; 12; 13; 14; 15; 16; 17; 18;
                  19; 20; 21; 22; 23; 24] 24 = 12.5.
Proof.
  split; [|split].
  - intros data H. unfold moving_average.
    apply Nat.ltb_lt in H. rewrite H. reflexivity.
  - intros data H. unfold moving_average.
    apply Nat.ltb_ge in H. rewrite H. reflexivity.
  - unfold moving_average, Py.last_n, Py.mean, Py.sum. simpl. lra.
Qed.

Lemma moving_average_window_24_witness :
  moving_average [3; 5] 24 = Py.mean [3; 5] /\
  moving_average (repeat 2 30) 24 = Py.mean (skipn (length (repeat 2 30) - 24) (repeat 2 30)).
Proof.
  split.
  - apply (proj1 moving_average_window_24). simpl. lia.
  - apply (proj1 (proj2 moving_average_window_24)). simpl. lia.
Defined.

(** ** Holt-Winters on short series *)

(** The first guard of [holt_winters], for any parameters. *)
Lemma holt_winters_below_two_seasons : forall data season_length alpha beta gamma,
  (length data < season_length * 2)%nat ->
  holt_winters data season_length alpha beta gamma = exponential_smoothing data alpha.
Proof.
  intros data L a b g H. unfold holt_winters.
  apply Nat.ltb_lt in H. rewrite H. reflexivity.
Qed.

(** C3: on every series of fewer than 48 points (two seasons of 24),
    [holt_winters] returns what [exponential_smoothing] with alpha 0.3
    returns on the same series. *)
Theorem holt_winters_short_is_exponential_smoothing :
  forall data, (length data < 48)%nat ->
    holt_winters data 24 0.3 0.1 0.1 = exponential_smoothing data 0.3.
Proof.
  intros data H. apply holt_winters_below_two_seasons. exact H.
Qed.

Lemma holt_winters_short_is_exponential_smoothing_witness :
  (length [10; 12; 11; 13] < 48)%nat /\
  holt_winters [10; 12; 11; 13] 24 0.3 0.1 0.1
  = exponential_smoothing [10; 12; 11; 13] 0.3.
Proof.
  split.
  - simpl. lia.
  - apply holt_winters_short_is_exponential_smoothing. simpl. lia.
Defined.

(** ** The simplified ARIMA forecaster *)

Lemma ar_term_1 : forall diff_data, (1 <= length diff_data)%nat ->
  ar_term 1 diff_data = 0.5 * last diff_data 0.
Proof.
  intros diff_data H. unfold ar_term.
  replace (Nat.min (1 + 1) (length diff_data + 1) - 1)%nat with 1%nat by lia.
  simpl. rewrite from_end_1_last. lra.
Qed.

(** The guard on the differenced series never fires inside [arima_simple]:
    past the first guard the differenced series is long enough. *)
Lemma arima_differenced_long_enough : forall data,
  (2 <= length data)%nat -> (1 <= length (Py.diff data))%nat.
Proof. intros data H. rewrite length_diff. lia. Qed.

Lemma arima_after_differencing_ar : forall data diff_data,
  (1 <= length diff_data)%nat ->
  arima_after_differencing data diff_data 1 1
  = Rmax 0 (last data 0 + 0.5 * last diff_data 0).
Proof.
  intros data diff_data H. unfold arima_after_differencing, Py.max0.
  change (Nat.max 1 1) with 1%nat.
  rewrite ar_term_1 by exact H. rewrite from_end_1_last.
  apply Nat.ltb_ge in H. rewrite H. reflexivity.
Qed.

Lemma arima_simple_two_or_more : forall data, (2 <= length data)%nat ->
  arima_simple data 1 1 1 = Rmax 0 (last data 0 + 0.5 * last (Py.diff data) 0).
Proof.
  intros data H. unfold arima_simple. change (Nat.max 1 1 + 1)%nat with 2%nat.
  assert (Hb : (length data <? 2)%nat = false) by (apply Nat.ltb_ge; exact H).
  rewrite Hb. apply arima_after_differencing_ar, arima_differenced_long_enough, H.
Qed.

(** C9: with p = d = q = 1, [arima_simple] returns the mean of a series of
    fewer than 2 points; otherwise it differences the series once and
    continues with [arima_after_differencing], which returns the last raw
    value when the differenced series has no point and otherwise the last
    raw value plus 0.5 times the last difference, clamped below at 0. *)
Theorem arima_simple_default : forall data,
  ((length data < 2)%nat -> arima_simple data 1 1 1 = Py.mean data) /\
  ((2 <= length data)%nat ->
     arima_simple data 1 1 1 = arima_after_differencing data (Py.diff data) 1 1 /\
     (forall diff_data, (length diff_data < 1)%nat ->
        arima_after_differencing data diff_data 1 1 = last data 0) /\
     (forall diff_data, (1 <= length diff_data)%nat ->
        arima_after_differencing data diff_data 1 1
        = Rmax 0 (last data 0 + 0.5 * last diff_data 0)) /\
     arima_simple data 1 1 1 = Rmax 0 (last data 0 + 0.5 * last (Py.diff data) 0)).
Proof.
  intros data. split; intros H.
  - unfold arima_simple. change (Nat.max 1 1 + 1)%nat with 2%nat.
    apply Nat.ltb_lt in H. rewrite H. reflexivity.
  - split; [|split; [|split]].
    + unfold arima_simple. change (Nat.max 1 1 + 1)%nat with 2%nat.
      apply Nat.ltb_ge in H. rewrite H. reflexivity.
    + intros diff_data Hd. unfold arima_after_differencing.
      change (Nat.max 1 1) with 1%nat.
      apply Nat.ltb_lt in Hd. rewrite Hd. apply from_end_1_last.
    + apply arima_after_differencing_ar.
    + apply arima_simple_two_or_more, H.
Qed.

Lemma arima_simple_default_witness :
  arima_simple [7] 1 1 1 = Py.mean [7] /\
  arima_after_differencing [4; 6; 9] [] 1 1 = last [4; 6; 9] 0 /\
  arima_simple [4; 6; 9] 1 1 1 = Rmax 0 (last [4; 6; 9] 0 + 0.5 * last (Py.diff [4; 6; 9]) 0).
Proof.
  assert (H1 : (length [7] < 2)%nat) by (simpl; lia).
  assert (H3 : (2 <= length [4; 6; 9])%nat) by (simpl; lia).
  destruct (proj2 (arima_simple_default [4; 6; 9]) H3) as (_ & Hlast & _ & Har).
  split; [|split].
  - exact (proj1 (arima_simple_default [7]) H1).
  - apply Hlast. simpl. lia.
  - exact Har.
Defined.

(** ** Holt-Winters on long series *)

Lemma length_set_item : forall l i v, length (Py.set_item i v l) = length l.
Proof.
  induction l as [|h t IH]; intros [|i] v; simpl; auto.
Qed.

Lemma nth_set_item : forall l i j v, (i < length l)%nat ->
  nth j (Py.set_item i v l) 0 = if (j =? i)%nat then v else nth j l 0.
Proof.
  induction l as [|h t IH]; intros i j v Hi; simpl in Hi; [lia|].
  destruct i as [|i]; destruct j as [|j]; simpl; try reflexivity.
  apply IH. lia.
Qed.

Lemma firstn_map_nth_seq : forall (l : list R) n, (n <= length l)%nat ->
  firstn n l = map (fun i => nth i l 0) (seq 0 n).
Proof.
  induction l as [|h t IH]; intros [|n] Hn; simpl in *; try reflexivity; try lia.
  rewrite <- seq_shift, map_map. f_equal. apply IH. lia.
Qed.

Lemma seq_as_map_add : forall n a, seq a n = map (Nat.add a) (seq 0 n).
Proof.
  induction n as [|n IH]; intros a; [reflexivity|].
  cbn [seq map]. rewrite Nat.add_0_r. f_equal.
  rewrite <- (seq_shift n 0), map_map, IH. apply map_ext. intros i. lia.
Qed.

Lemma slice_map_nth_seq : forall (l : list R) a b, (a <= b)%nat -> (b <= length l)%nat ->
  Py.slice a b l = map (fun i => nth i l 0) (seq a (b - a)).
Proof.
  intros l a b Hab Hb. unfold Py.slice.
  rewrite firstn_map_nth_seq by (rewrite length_skipn; lia).
  rewrite (seq_as_map_add (b - a) a), map_map.
  apply map_ext. intros i. apply nth_skipn.
Qed.

Lemma hw_init_agree : forall data, (48 <= length data)%nat ->
  hw_agree (hw_init data 24) (HWSpec.initial (fun i => nth i data 0)).
Proof.
  intros data H. unfold hw_init, HWSpec.initial, hw_agree. cbn [hw_level hw_trend hw_seasonal HWSpec.level HWSpec.trend HWSpec.seasonal].
  rewrite !slice_map_nth_seq by lia.
  change (24 - 0)%nat with 24%nat. change (2 * 24 - 24)%nat with 24%nat.
  change (INR 24) with (INR (20 + 4)). rewrite plus_INR.
  replace (INR 20 + INR 4) with 24 by (simpl; lra).
  split; [reflexivity|]. split; [reflexivity|]. split.
  - rewrite length_map, length_seq. reflexivity.
  - intros j Hj.
    rewrite (nth_indep _ 0 ((fun i => nth i data 0 - Py.mean (map (fun i0 => nth i0 data 0) (seq 0 24))) 0%nat))
      by (rewrite length_map, length_seq; exact Hj).
    rewrite (map_nth (fun i => nth i data 0 - Py.mean (map (fun i0 => nth i0 data 0) (seq 0 24)))).
    rewrite seq_nth by exact Hj. reflexivity.
Qed.

Lemma hw_step_agree : forall data st k,
  hw_agree st (HWSpec.after (fun i => nth i data 0) k) ->
  hw_agree (hw_step data 24 0.3 0.1 0.1 st (24 + k))
           (HWSpec.after (fun i => nth i data 0) (S k)).
Proof.
  intros data st k (Hl & Ht & Hlen & Hs).
  assert (Hm : ((24 + k) mod 24 < 24)%nat) by (apply Nat.mod_upper_bound; lia).
  unfold hw_agree, hw_step.
  cbn [hw_level hw_trend hw_seasonal HWSpec.after HWSpec.level HWSpec.trend HWSpec.seasonal].
  rewrite Hl, Ht, (Hs _ Hm).
  split; [reflexivity|]. split; [reflexivity|]. split.
  - rewrite length_set_item. exact Hlen.
  - intros j Hj. rewrite nth_set_item by (rewrite Hlen; exact Hm).
    destruct (j =? (24 + k) mod 24)%nat; [reflexivity|]. apply Hs, Hj.
Qed.

Lemma hw_loop_agree : forall data k,
  (48 <= length data)%nat ->
  hw_agree (fold_left (hw_step data 24 0.3 0.1 0.1) (seq 24 k) (hw_init data 24))
           (HWSpec.after (fun i => nth i data 0) k).
Proof.
  intros data k H. induction k as [|k IH].
  - apply hw_init_agree, H.
  - rewrite seq_S, fold_left_app. cbn [fold_left].
    apply hw_step_agree, IH.
Qed.

(** C4: on every series of at least 48 points, [holt_winters] (season 24,
    alpha 0.3, beta 0.1, gamma 0.1) starts from level = mean of the first 24
    values, trend = (mean of the second block of 24 - mean of the first) / 24
    and seasonal[i] = x_i - level, applies the level, trend and seasonal
    recurrences for i = 24, ..., len - 1, and returns
    level + trend + seasonal[0]. *)
Theorem holt_winters_long_series : forall data,
  (48 <= length data)%nat ->
  holt_winters data 24 0.3 0.1 0.1 = HWSpec.forecast data.
Proof.
  intros data H. unfold holt_winters, HWSpec.forecast.
  change (24 * 2)%nat with 48%nat.
  assert (Hb : (length data <? 48)%nat = false) by (apply Nat.ltb_ge; exact H).
  rewrite Hb.
  destruct (hw_loop_agree data (length data - 24) H) as (Hl & Ht & _ & Hs).
  cbv zeta. rewrite Hl, Ht, (Hs 0%nat) by lia. reflexivity.
Qed.

Lemma holt_winters_long_series_witness :
  (48 <= length (repeat 5 48))%nat /\
  holt_winters (repeat 5 48) 24 0.3 0.1 0.1 = HWSpec.forecast (repeat 5 48).
Proof.
  split.
  - simpl. lia.
  - apply holt_winters_long_series. simpl. lia.
Defined.

(** ** The entry point and the combiner *)

Lemma list_min_le : forall l x, In x l -> list_min l <= x.
Proof.
  intros l x. unfold list_min. generalize (hd 0 l) as d.
  induction l as [|h t IH]; intros d Hin; simpl in *; [contradiction|].
  destruct Hin as [->|Hin].
  - apply Rmin_l.
  - eapply Rle_trans; [apply Rmin_r|]. apply IH, Hin.
Qed.

Lemma list_max_ge : forall l x, In x l -> x <= list_max l.
Proof.
  intros l x. unfold list_max. generalize (hd 0 l) as d.
  induction l as [|h t IH]; intros d Hin; simpl in *; [contradiction|].
  destruct Hin as [->|Hin].
  - apply Rmax_l.
  - eapply Rle_trans; [|apply Rmax_r]. apply IH, Hin.
Qed.

Section Combiner.

Variable lstsq : list (list R) -> list R -> list R.

Variable sklearn_raises : list (list R) -> list R -> option Exception.


(** The six predictions, by name. *)
Lemma predictions_values : forall df,
  map snd (predictions lstsq df) =
  [moving_average (consumption_list df) 24;
   exponential_smoothing (consumption_list df) 0.3;
   holt_winters (consumption_list df) 24 0.3 0.1 0.1;
   arima_simple (consumption_list df) 1 1 1;
   lr_prediction (linear_regression_forecast lstsq df);
   sd_prediction (seasonal_decomposition_forecast (consumption_list df) 24)].
Proof. reflexivity. Qed.

Lemma weighted_sum_six : forall ma es hw ar lr sd,
  weighted_sum
    [("moving_average", ma); ("exponential_smoothing", es); ("holt_winters", hw);
     ("arima", ar); ("linear_regression", lr); ("seasonal_decomposition", sd)]%string
    weights
  = 0.15 * ma + 0.20 * es + 0.25 * hw + 0.20 * lr + 0.15 * sd + 0.05 * ar.
Proof. intros. unfold weighted_sum, weights. simpl. lra. Qed.

(** C6 (amended): the weight table gives moving_average 0.15,
    exponential_smoothing 0.20, holt_winters 0.25, linear_regression 0.20,
    seasonal_decomposition 0.15 and arima 0.05; the weights add up to 1
    within 1e-9, as real numbers and as binary64 values; and on every frame
    of at least 10 rows the ensemble prediction is the sum of the six
    predictions times their weights, added from 0 in the dictionary's
    order, and lies between the least and the greatest of the six
    predictions up to rounding: within 1e-9 * (1 + the larger magnitude of
    the two) of that interval. *)
Theorem ensemble_weights_convex :
  (dict_get weights "moving_average" = 0.15 /\
   dict_get weights "exponential_smoothing" = 0.20 /\
   dict_get weights "holt_winters" = 0.25 /\
   dict_get weights "linear_regression" = 0.20 /\
   dict_get weights "seasonal_decomposition" = 0.15 /\
   dict_get weights "arima" = 0.05 /\
   length weights = 6%nat) /\
  Rabs (Py.sum (map snd weights) - 1) <= 1 / 10 ^ 9 /\
  Binary64.weights_sum_within_tolerance = true /\
  forall df, (10 <= length df)%nat ->
    let r := ensemble_forecast lstsq df in
    let p := dict_get (individual_predictions r) in
    let lo := list_min (map snd (individual_predictions r)) in
    let hi := list_max (map snd (individual_predictions r)) in
    let tol := 1 / 10 ^ 9 * (1 + Rmax (Rabs lo) (Rabs hi)) in
    map fst (individual_predictions r)
    = ["moving_average"; "exponential_smoothing"; "holt_winters"; "arima";
       "linear_regression"; "seasonal_decomposition"]%string /\
    ensemble_prediction r
    = 0 + p "moving_average"%string * 0.15 + p "exponential_smoothing"%string * 0.20
      + p "holt_winters"%string * 0.25 + p "arima"%string * 0.05
      + p "linear_regression"%string * 0.20
      + p "seasonal_decomposition"%string * 0.15 /\
    lo - tol <= ensemble_prediction r /\
    ensemble_prediction r <= hi + tol.
Proof.
  split; [|split; [|split]].
  - repeat split.
  - unfold weights, Py.sum. simpl.
    replace (0.15 + (0.20 + (0.25 + (0.20 + (0.15 + (0.05 + 0))))) - 1) with 0 by lra.
    rewrite Rabs_R0. lra.
  - reflexivity.
  - intros df _ r p lo hi tol. subst r p lo hi tol. unfold ensemble_forecast.
    cbn [individual_predictions ensemble_prediction].
    split; [reflexivity|]. split; [reflexivity|].
    rewrite predictions_values. unfold predictions. rewrite weighted_sum_six.
    set (ma := moving_average _ _). set (es := exponential_smoothing _ _).
    set (hw := holt_winters _ _ _ _ _). set (ar := arima_simple _ _ _ _).
    set (lr := lr_prediction _). set (sd := sd_prediction _).
    assert (Hmin : forall x, In x [ma; es; hw; ar; lr; sd] ->
                     list_min [ma; es; hw; ar; lr; sd] <= x) by (apply list_min_le).
    assert (Hmax : forall x, In x [ma; es; hw; ar; lr; sd] ->
                     x <= list_max [ma; es; hw; ar; lr; sd]) by (apply list_max_ge).
    set (lo := list_min _) in *. set (hi := list_max _) in *.
    assert (lo <= ma <= hi) by (split; [apply Hmin|apply Hmax]; simpl; tauto).
    assert (lo <= es <= hi) by (split; [apply Hmin|apply Hmax]; simpl; tauto).
    assert (lo <= hw <= hi) by (split; [apply Hmin|apply Hmax]; simpl; tauto).
    assert (lo <= ar <= hi) by (split; [apply Hmin|apply Hmax]; simpl; tauto).
    assert (lo <= lr <= hi) by (split; [apply Hmin|apply Hmax]; simpl; tauto).
    assert (lo <= sd <= hi) by (split; [apply Hmin|apply Hmax]; simpl; tauto).
    assert (Htol : 0 <= 1 / 10 ^ 9 * (1 + Rmax (Rabs lo) (Rabs hi))).
    { assert (0 <= Rabs lo) by apply Rabs_pos.
      assert (Rabs lo <= Rmax (Rabs lo) (Rabs hi)) by apply Rmax_l.
      apply Rmult_le_pos; lra. }
    split; lra.
Qed.

Lemma std_nonneg : forall l, 0 <= Py.std l.
Proof. intros l. unfold Py.std. apply sqrt_pos. Qed.

Lemma std_six : forall p1 p2 p3 p4 p5 p6,
  Py.std [p1; p2; p3; p4; p5; p6] =
  let mu := (p1 + p2 + p3 + p4 + p5 + p6) / 6 in
  sqrt (((p1 - mu) * (p1 - mu) + (p2 - mu) * (p2 - mu) + (p3 - mu) * (p3 - mu)
         + (p4 - mu) * (p4 - mu) + (p5 - mu) * (p5 - mu) + (p6 - mu) * (p6 - mu)) / 6).
Proof.
  intros. unfold Py.std, Py.mean, Py.sum. cbv zeta. f_equal. simpl. field.
Qed.

(** C7: on every frame of at least 10 rows, [prediction_variance] is the
    population standard deviation of the six individual predictions, the
    confidence interval is the ensemble prediction minus and plus 1.96
    times it, hence lower <= ensemble_prediction <= upper when it is
    positive and lower = ensemble_prediction = upper when it is 0. *)
Theorem ensemble_confidence_interval : forall df, (10 <= length df)%nat ->
  let r := ensemble_forecast lstsq df in
  (exists p1 p2 p3 p4 p5 p6,
     map snd (individual_predictions r) = [p1; p2; p3; p4; p5; p6] /\
     let mu := (p1 + p2 + p3 + p4 + p5 + p6) / 6 in
     prediction_variance r =
     sqrt (((p1 - mu) * (p1 - mu) + (p2 - mu) * (p2 - mu) + (p3 - mu) * (p3 - mu)
            + (p4 - mu) * (p4 - mu) + (p5 - mu) * (p5 - mu) + (p6 - mu) * (p6 - mu)) / 6)) /\
  confidence_interval_lower r = ensemble_prediction r - 1.96 * prediction_variance r /\
  confidence_interval_upper r = ensemble_prediction r + 1.96 * prediction_variance r /\
  (0 < prediction_variance r ->
     confidence_interval_lower r <= ensemble_prediction r /\
     ensemble_prediction r <= confidence_interval_upper r) /\
  (prediction_variance r = 0 ->
     confidence_interval_lower r = ensemble_prediction r /\
     ensemble_prediction r = confidence_interval_upper r).
Proof.
  intros df _ r. subst r. unfold ensemble_forecast.
  cbn [individual_predictions ensemble_prediction prediction_variance
       confidence_interval_lower confidence_interval_upper].
  rewrite predictions_values.
  split; [|split; [reflexivity|split; [reflexivity|split]]].
  - do 6 eexists. split; [reflexivity|]. apply std_six.
  - intros Hpos. lra.
  - intros Hzero. rewrite Hzero. lra.
Qed.

Lemma spike_consumption :
  consumption_list spike_frame = [0; 0; 0; 0; 0; 0; 0; 0; 0; 10].
Proof. reflexivity. Qed.

Lemma spike_predictions :
  map snd (predictions lstsq spike_frame)
  = [1; 3; 3; 15; lr_prediction (linear_regression_forecast lstsq spike_frame); 1].
Proof.
  rewrite predictions_values, spike_consumption.
  assert (Hma : moving_average [0; 0; 0; 0; 0; 0; 0; 0; 0; 10] 24 = 1).
  { unfold moving_average, Py.mean, Py.sum. simpl. lra. }
  assert (Hes : exponential_smoothing [0; 0; 0; 0; 0; 0; 0; 0; 0; 10] 0.3 = 3).
  { unfold exponential_smoothing. simpl. lra. }
  assert (Hhw : holt_winters [0; 0; 0; 0; 0; 0; 0; 0; 0; 10] 24 0.3 0.1 0.1 = 3).
  { rewrite holt_winters_below_two_seasons by (simpl; lia). exact Hes. }
  assert (Har : arima_simple [0; 0; 0; 0; 0; 0; 0; 0; 0; 10] 1 1 1 = 15).
  { rewrite arima_simple_two_or_more by (simpl; lia).
    simpl. replace (10 + 0.5 * (10 - 0)) with 15 by lra. apply Rmax_right. lra. }
  assert (Hsd : sd_prediction
                  (seasonal_decomposition_forecast [0; 0; 0; 0; 0; 0; 0; 0; 0; 10] 24) = 1).
  { unfold seasonal_decomposition_forecast, Py.mean, Py.sum. simpl. lra. }
  rewrite Hma, Hes, Hhw, Har, Hsd. reflexivity.
Qed.

Lemma lr_prediction_nonneg : forall df, (10 <= length df)%nat ->
  0 <= lr_prediction (linear_regression_forecast lstsq df).
Proof.
  intros df H. unfold linear_regression_forecast.
  apply Nat.ltb_ge in H. rewrite H. cbn [lr_prediction]. apply Rmax_l.
Qed.

Lemma spike_lower_negative :
  let r := ensemble_forecast lstsq spike_frame in
  Forall (fun p => 0 <= p) (map snd (individual_predictions r)) /\
  0 <= ensemble_prediction r /\
  confidence_interval_lower r < 0.
Proof.
  intros r. subst r. unfold ensemble_forecast.
  cbn [individual_predictions ensemble_prediction confidence_interval_lower].
  assert (Hp := lr_prediction_nonneg spike_frame).
  rewrite spike_predictions. unfold predictions. rewrite weighted_sum_six.
  rewrite spike_consumption.
  change (moving_average _ _) with (nth 0 (map snd (predictions lstsq spike_frame)) 0).
  change (exponential_smoothing _ _) with (nth 1 (map snd (predictions lstsq spike_frame)) 0).
  change (holt_winters _ _ _ _ _) with (nth 2 (map snd (predictions lstsq spike_frame)) 0).
  change (arima_simple _ _ _ _) with (nth 3 (map snd (predictions lstsq spike_frame)) 0).
  change (sd_prediction _) with (nth 5 (map snd (predictions lstsq spike_frame)) 0).
  rewrite spike_predictions. cbn [nth].
  set (p := lr_prediction _) in *.
  assert (Hp0 : 0 <= p) by (apply Hp; simpl; lia).
  split; [|split].
  - repeat (apply Forall_cons; [lra|]). apply Forall_nil.
  - lra.
  - rewrite std_six. cbv zeta.
    set (V := (_ / 6)).
    assert (HV : V = (5 * p * p - 46 * p + 941) / 36) by (unfold V; field).
    assert (HV0 : 0 <= V) by (rewrite HV; nra).
    assert (Hs : sqrt V * sqrt V = V) by (apply sqrt_sqrt; exact HV0).
    assert (Hs0 : 0 <= sqrt V) by apply sqrt_pos.
    set (s := sqrt V) in *. rewrite HV in Hs. clearbody s. clear HV HV0 V.
    apply Rnot_le_lt. intros Hle.
    assert (Hsq : (1.96 * s) * (1.96 * s) <= (2.4 + 0.2 * p) * (2.4 + 0.2 * p)).
    { apply Rmult_le_compat; lra. }
    assert (Hq := Rle_0_sqr (p - 6)). unfold Rsqr in Hq.
    nra.
Qed.

End Combiner.

(** ** Sign of the predictions *)

(** One loop iteration with its three new values named. *)
Lemma hw_step_named : forall data l t s i,
  exists l' t' v',
    l' = 0.3 * (nth i data 0 - nth (i mod 24) s 0) + 0.7 * (l + t) /\
    t' = 0.1 * (l' - l) + 0.9 * t /\
    v' = 0.1 * (nth i data 0 - l') + 0.9 * nth (i mod 24) s 0 /\
    hw_step data 24 0.3 0.1 0.1 (mkHW l t s) i
    = mkHW l' t' (Py.set_item (i mod 24) v' s).
Proof.
  intros data l t s i. do 3 eexists.
  split; [reflexivity|]. split; [reflexivity|]. split; [reflexivity|].
  unfold hw_step. cbn [hw_level hw_trend hw_seasonal]. f_equal; [lra|lra|].
  f_equal. lra.
Qed.

Lemma step_down_init :
  hw_init step_down_series 24 = mkHW 24 (-1) (repeat 0 24).
Proof.
  unfold hw_init, Py.mean, Py.slice, Py.sum, step_down_series. simpl.
  f_equal; [lra|lra|].
  repeat (apply f_equal2; [lra|]). reflexivity.
Qed.

Ltac hw_next :=
  match goal with
  | |- context [hw_step ?d 24 0.3 0.1 0.1 (mkHW ?l ?t ?s) ?i] =>
      let l' := fresh "l" in
      let t' := fresh "t" in
      let v' := fresh "v" in
      let El := fresh "El" in
      let Et := fresh "Et" in
      let Ev := fresh "Ev" in
      let Hs := fresh "Hs" in
      destruct (hw_step_named d l t s i) as (l' & t' & v' & El & Et & Ev & Hs);
      rewrite Hs; clear Hs;
      unfold step_down_series in El, Ev;
      simpl in El, Ev; simpl Nat.modulo; simpl Py.set_item
  end.

Lemma step_down_forecast_value :
  -2.85 < holt_winters step_down_series 24 0.3 0.1 0.1 < -2.84.
Proof.
  unfold holt_winters.
  replace (length step_down_series <? 24 * 2)%nat with false by reflexivity.
  replace (length step_down_series - 24)%nat with 24%nat by reflexivity.
  rewrite step_down_init. cbn [seq fold_left repeat].
  do 24 hw_next.
  cbn [hw_level hw_trend hw_seasonal nth].
  split; lra.
Qed.

(** ** Constant series *)

Lemma sum_repeat : forall c n, Py.sum (repeat c n) = INR n * c.
Proof.
  intros c n. unfold Py.sum. induction n as [|n IH].
  - simpl. lra.
  - rewrite S_INR. cbn [repeat fold_right]. rewrite IH. lra.
Qed.

Lemma mean_repeat : forall c n, (0 < n)%nat -> Py.mean (repeat c n) = c.
Proof.
  intros c n Hn. unfold Py.mean. rewrite sum_repeat, repeat_length.
  field. apply not_0_INR. lia.
Qed.

Lemma firstn_repeat : forall (c : R) k n, firstn k (repeat c n) = repeat c (Nat.min k n).
Proof.
  intros c k. induction k as [|k IH]; intros [|n]; simpl; try reflexivity.
  rewrite IH. reflexivity.
Qed.

Lemma skipn_repeat : forall (c : R) k n, skipn k (repeat c n) = repeat c (n - k).
Proof.
  intros c k. induction k as [|k IH]; intros [|n]; simpl; try reflexivity.
  apply IH.
Qed.

Lemma slice_repeat : forall c a b n,
  Py.slice a b (repeat c n) = repeat c (Nat.min (b - a) (n - a)).
Proof. intros. unfold Py.slice. rewrite skipn_repeat, firstn_repeat. reflexivity. Qed.

Lemma last_repeat : forall (c d : R) n, last (repeat c (S n)) d = c.
Proof.
  intros c d n. induction n as [|n IH]; [reflexivity|].
  change (repeat c (S (S n))) with (c :: repeat c (S n)).
  change (last (c :: repeat c (S n)) d) with (last (repeat c (S n)) d). exact IH.
Qed.

Lemma diff_repeat : forall c n, Py.diff (repeat c n) = repeat (c - c) (n - 1).
Proof.
  intros c n. induction n as [|[|n] IH]; try reflexivity.
  change (Py.diff (repeat c (S (S n))))
    with ((c - c) :: Py.diff (repeat c (S n))).
  rewrite IH. simpl. rewrite Nat.sub_0_r. reflexivity.
Qed.

Lemma nth_zeros : forall l k, Forall (fun v => v = 0) l -> nth k l 0 = 0.
Proof.
  intros l k H. revert k. induction H as [|x l Hx _ IH]; intros [|k]; simpl; auto.
Qed.

Lemma Forall_set_item : forall (P : R -> Prop) l i v,
  Forall P l -> P v -> Forall P (Py.set_item i v l).
Proof.
  intros P l i v H Hv. revert i. induction H as [|x l Hx Hl IH]; intros [|i]; simpl;
    constructor; auto.
Qed.

Lemma sum_zeros : forall l, Forall (fun v => v = 0) l -> Py.sum l = 0.
Proof.
  intros l H. unfold Py.sum. induction H as [|x l Hx _ IH]; simpl; [reflexivity|].
  rewrite Hx, IH. lra.
Qed.

Lemma sum_nonneg : forall l, Forall (fun v => 0 <= v) l -> 0 <= Py.sum l.
Proof.
  intros l H. unfold Py.sum. induction H as [|x l Hx _ IH]; simpl; lra.
Qed.

Lemma consumption_constant : forall df c,
  Forall (fun r => consumption r = c) df ->
  consumption_list df = repeat c (length df).
Proof.
  intros df c H. unfold consumption_list.
  induction H as [|r df Hr _ IH]; simpl; [reflexivity|].
  rewrite Hr, IH. reflexivity.
Qed.

(** *** Moving average, exponential smoothing, ARIMA *)

Lemma moving_average_constant : forall c n, (24 <= n)%nat ->
  moving_average (repeat c n) 24 = c.
Proof.
  intros c n H. unfold moving_average, Py.last_n. rewrite repeat_length.
  assert (Hb : (n <? 24)%nat = false) by (apply Nat.ltb_ge; exact H).
  rewrite Hb. cbn [Nat.eqb]. rewrite skipn_repeat. apply mean_repeat. lia.
Qed.

Lemma exponential_smoothing_constant : forall c alpha n, (1 <= n)%nat ->
  exponential_smoothing (repeat c n) alpha = c.
Proof.
  intros c alpha [|n] H; [lia|]. cbn [repeat exponential_smoothing]. clear H.
  induction n as [|n IH]; [reflexivity|].
  cbn [repeat fold_left].
  replace (alpha * c + (1 - alpha) * c) with c by lra. exact IH.
Qed.

Lemma arima_constant : forall c n, 0 <= c -> (2 <= n)%nat ->
  arima_simple (repeat c n) 1 1 1 = c.
Proof.
  intros c n Hc H.
  rewrite arima_simple_two_or_more by (rewrite repeat_length; exact H).
  rewrite diff_repeat.
  destruct n as [|[|n]]; try lia.
  replace (S (S n) - 1)%nat with (S n) by lia.
  rewrite !last_repeat.
  replace (c + 0.5 * (c - c)) with c by lra. apply Rmax_right, Hc.
Qed.

(** *** Holt-Winters *)

Lemma hw_init_flat : forall c n, (48 <= n)%nat -> hw_flat c (hw_init (repeat c n) 24).
Proof.
  intros c n H. unfold hw_flat, hw_init. cbn [hw_level hw_trend hw_seasonal].
  rewrite !slice_repeat.
  replace (Nat.min (24 - 0) (n - 0)) with 24%nat by lia.
  replace (Nat.min (2 * 24 - 24) (n - 24)) with 24%nat by lia.
  rewrite mean_repeat by lia.
  split; [reflexivity|]. split.
  - unfold Rdiv. rewrite Rminus_diag. apply Rmult_0_l.
  - apply Forall_map, Forall_forall. intros i Hi. apply in_seq in Hi.
    rewrite nth_repeat_lt by lia. apply Rminus_diag.
Qed.

Lemma hw_step_flat : forall c n st i, (i < n)%nat ->
  hw_flat c st -> hw_flat c (hw_step (repeat c n) 24 0.3 0.1 0.1 st i).
Proof.
  intros c n st i Hi (Hl & Ht & Hs). unfold hw_flat, hw_step.
  cbn [hw_level hw_trend hw_seasonal].
  rewrite Hl, Ht, (nth_zeros _ _ Hs), nth_repeat_lt by exact Hi.
  split; [lra|]. split; [lra|].
  apply Forall_set_item; [exact Hs|lra].
Qed.

Lemma hw_loop_flat : forall c n idx st,
  Forall (fun i => (i < n)%nat) idx -> hw_flat c st ->
  hw_flat c (fold_left (hw_step (repeat c n) 24 0.3 0.1 0.1) idx st).
Proof.
  intros c n idx. induction idx as [|i idx IH]; intros st His Hst; [exact Hst|].
  inversion His as [|? ? Hi His']; subst.
  cbn [fold_left]. apply IH; [exact His'|]. apply hw_step_flat; assumption.
Qed.

Lemma holt_winters_constant : forall c n, (48 <= n)%nat ->
  holt_winters (repeat c n) 24 0.3 0.1 0.1 = c.
Proof.
  intros c n H. unfold holt_winters. rewrite repeat_length.
  assert (Hb : (n <? 24 * 2)%nat = false) by (apply Nat.ltb_ge; simpl; exact H).
  rewrite Hb.
  destruct (hw_loop_flat c n (seq 24 (n - 24)) (hw_init (repeat c n) 24))
    as (Hl & Ht & Hs).
  - apply Forall_forall. intros i Hi. apply in_seq in Hi. lia.
  - apply hw_init_flat, H.
  - cbv zeta. rewrite Hl, Ht, (nth_zeros _ _ Hs). lra.
Qed.

(** *** Seasonal decomposition *)

Lemma sd_trend_constant : forall c n,
  sd_trend_list (repeat c n) 24 = repeat c n.
Proof.
  intros c n. unfold sd_trend_list. rewrite repeat_length.
  transitivity (map (fun _ : nat => c) (seq 0 n)).
  - apply map_ext_in. intros i Hi. apply in_seq in Hi.
    rewrite slice_repeat. apply mean_repeat.
    change (24 / 2)%nat with 12%nat. lia.
  - rewrite map_const, length_seq. reflexivity.
Qed.

Lemma combine_repeat : forall (a b : R) n,
  combine (repeat a n) (repeat b n) = repeat (a, b) n.
Proof.
  intros a b n. induction n as [|n IH]; simpl; [reflexivity|].
  rewrite IH. reflexivity.
Qed.

Lemma sd_detrended_constant : forall c n,
  sd_detrended (repeat c n) 24 = repeat 0 n.
Proof.
  intros c n. unfold sd_detrended.
  rewrite sd_trend_constant, combine_repeat, map_repeat. cbn [fst snd].
  rewrite Rminus_diag. reflexivity.
Qed.

Lemma mean_zeros : forall l, Forall (fun v => v = 0) l -> Py.mean l = 0.
Proof.
  intros l H. unfold Py.mean. rewrite (sum_zeros _ H). unfold Rdiv. apply Rmult_0_l.
Qed.

Lemma sd_seasonal_constant : forall c n i,
  nth i (sd_seasonal_list (repeat c n) 24) 0 = 0.
Proof.
  intros c n i. apply nth_zeros. unfold sd_seasonal_list.
  apply Forall_map, Forall_forall. intros j _. cbv zeta.
  rewrite sd_detrended_constant.
  destruct (0 <? length (Py.stride j 24 (repeat 0%R n)))%nat; [|reflexivity].
  apply mean_zeros. unfold Py.stride.
  apply Forall_map, Forall_forall. intros k _. apply nth_repeat.
Qed.

Lemma seasonal_decomposition_constant : forall c n, 0 <= c -> (72 <= n)%nat ->
  sd_prediction (seasonal_decomposition_forecast (repeat c n) 24) = c.
Proof.
  intros c n Hc H. unfold seasonal_decomposition_forecast. rewrite repeat_length.
  assert (Hb : (n <? 24 * 3)%nat = false) by (apply Nat.ltb_ge; simpl; exact H).
  rewrite Hb. cbv zeta. cbn [sd_prediction].
  rewrite sd_seasonal_constant, sd_trend_constant, repeat_length.
  assert (Hb1 : (1 <? n)%nat = true) by (apply Nat.ltb_lt; lia).
  rewrite Hb1. unfold Py.from_end. rewrite repeat_length.
  rewrite !nth_repeat_lt by lia.
  unfold Py.max0. replace (c + (c - c) + 0) with c by lra. apply Rmax_right, Hc.
Qed.

(** *** Linear regression *)

Lemma dot_zeros_r : forall u w, Forall (fun v => v = 0) w -> dot u w = 0.
Proof.
  intros u w H. unfold dot. apply sum_zeros. revert u.
  induction H as [|x w Hx _ IH]; intros [|a u]; simpl; constructor.
  - rewrite Hx. apply Rmult_0_r.
  - apply IH.
Qed.

Lemma dot_self_nonpos_zeros : forall w, dot w w <= 0 -> Forall (fun v => v = 0) w.
Proof.
  unfold dot, Py.sum. induction w as [|a w IH]; intros H; constructor; simpl in H.
  - assert (0 <= fold_right Rplus 0 (map (fun p => fst p * snd p) (combine w w))).
    { clear. induction w as [|b w IH]; simpl; [lra|]. nra. }
    nra.
  - apply IH.
    assert (0 <= a * a) by nra. lra.
Qed.

Lemma rss_nonneg : forall X y w, 0 <= rss X y w.
Proof.
  intros X y w. unfold rss. apply sum_nonneg, Forall_map, Forall_forall.
  intros p _. apply (Rle_0_sqr (snd p - dot (fst p) w)).
Qed.

Lemma rss_zero_targets : forall X y k,
  Forall (fun v => v = 0) y -> rss X y (repeat 0 k) = 0.
Proof.
  intros X y k H. unfold rss. apply sum_zeros, Forall_map, Forall_forall.
  intros [row v] Hin. cbn [fst snd].
  apply in_combine_r in Hin. rewrite Forall_forall in H. rewrite (H _ Hin).
  rewrite dot_zeros_r; [lra|]. apply Forall_forall. intros z Hz.
  apply repeat_spec in Hz. exact Hz.
Qed.

Lemma centre_constant : forall c n, (0 < n)%nat ->
  Forall (fun v => v = 0) (centre (repeat c n)).
Proof.
  intros c n Hn. unfold centre. rewrite mean_repeat by exact Hn.
  apply Forall_map, Forall_forall. intros v Hv.
  apply repeat_spec in Hv. rewrite Hv. apply Rminus_diag.
Qed.

Section ConstantRegression.

Variable lstsq : list (list R) -> list R -> list R.

Lemma linear_regression_constant : forall df c,
  0 <= c -> (10 <= length df)%nat ->
  Forall (fun r => consumption r = c) df ->
  solver_exact_on lstsq df ->
  lr_prediction (linear_regression_forecast lstsq df) = c.
Proof.
  intros df c Hc Hn Hdf Hsolve.
  unfold solver_exact_on in Hsolve. cbv zeta in Hsolve.
  unfold linear_regression_forecast, LinearRegression_fit, predict.
  assert (Hb : (length df <? 10)%nat = false) by (apply Nat.ltb_ge; exact Hn).
  rewrite Hb. cbv zeta. cbn [lr_prediction coef_ intercept_].
  set (Xc := centre_columns _ _) in *.
  rewrite (consumption_constant df c Hdf) in *.
  assert (Hy := centre_constant c (length df) ltac:(lia)).
  set (yc := centre _) in *. set (w := lstsq Xc yc) in *.
  destruct Hsolve as (_ & _ & Hnorm).
  assert (Hw : Forall (fun v => v = 0) w).
  { apply dot_self_nonpos_zeros.
    specialize (Hnorm (repeat 0 (length features))).
    rewrite (dot_zeros_r (repeat 0 (length features))) in Hnorm.
    - apply Hnorm; [apply repeat_length|].
      rewrite rss_zero_targets by exact Hy. apply rss_nonneg.
    - apply Forall_forall. intros z Hz. apply repeat_spec in Hz. exact Hz. }
  rewrite !(dot_zeros_r _ w Hw), mean_repeat by lia.
  unfold Py.max0. replace (0 + (c - 0)) with c by lra. apply Rmax_right, Hc.
Qed.

(** C8 (amended): on a well-formed frame of at least 72 rows whose
    consumption is the constant c >= 0, with the sum of all readings at
    most 1e308 so that no sum of readings overflows, each of the six
    predictions equals c within floating tolerance: within
    1e-9 * (1 + c) of c.  (In exact arithmetic each equals c.)  The
    regression one holds provided the least-squares solver meets its
    contract on this frame. *)
Theorem constant_series_predictions : forall df c,
  0 <= c -> (72 <= length df)%nat ->
  INR (length df) * c <= 1e308 ->
  Forall (well_formed_row (length df)) df ->
  Forall (fun r => consumption r = c) df ->
  solver_exact_on lstsq df ->
  let tol := 1 / 10 ^ 9 * (1 + c) in
  Rabs (moving_average (consumption_list df) 24 - c) <= tol /\
  Rabs (exponential_smoothing (consumption_list df) 0.3 - c) <= tol /\
  Rabs (holt_winters (consumption_list df) 24 0.3 0.1 0.1 - c) <= tol /\
  Rabs (lr_prediction (linear_regression_forecast lstsq df) - c) <= tol /\
  Rabs (sd_prediction (seasonal_decomposition_forecast (consumption_list df) 24) - c)
    <= tol /\
  Rabs (arima_simple (consumption_list df) 1 1 1 - c) <= tol /\
  Forall (fun kv => Rabs (snd kv - c) <= tol) (predictions lstsq df).
Proof.
  intros df c Hc Hn _ _ Hdf Hsolve tol.
  assert (Htol : Rabs (c - c) <= tol).
  { rewrite Rminus_diag, Rabs_R0. subst tol. apply Rmult_le_pos; lra. }
  assert (Hlr := linear_regression_constant df c Hc ltac:(lia) Hdf Hsolve).
  unfold predictions. cbv zeta.
  rewrite (consumption_constant df c Hdf).
  rewrite (moving_average_constant c (length df)) by lia.
  rewrite (exponential_smoothing_constant c 0.3 (length df)) by lia.
  rewrite (holt_winters_constant c (length df)) by lia.
  rewrite (seasonal_decomposition_constant c (length df) Hc Hn).
  rewrite (arima_constant c (length df) Hc) by lia.
  rewrite Hlr.
  repeat (split; [exact Htol|]).
  repeat (apply Forall_cons; [exact Htol|]). apply Forall_nil.
Qed.

End ConstantRegression.

(** ** Non-negative predictions *)

Lemma mean_nonneg : forall l, l <> [] -> Forall (fun v => 0 <= v) l -> 0 <= Py.mean l.
Proof.
  intros l Hne H. unfold Py.mean. apply Rmult_le_pos; [apply sum_nonneg, H|].
  destruct l as [|x l]; [contradiction|].
  apply Rlt_le, Rinv_0_lt_compat, lt_0_INR. simpl. lia.
Qed.

Lemma Forall_skipn_R : forall (P : R -> Prop) n l, Forall P l -> Forall P (skipn n l).
Proof.
  intros P n. induction n as [|n IH]; intros l H; [exact H|].
  destruct H as [|x l Hx Hl]; simpl; [constructor|]. apply IH, Hl.
Qed.

Lemma skipn_nonempty : forall (l : list R) n, (n < length l)%nat -> skipn n l <> [].
Proof.
  intros l n H Heq. apply (f_equal (@length R)) in Heq.
  rewrite length_skipn in Heq. simpl in Heq. lia.
Qed.

Lemma moving_average_nonneg : forall data window,
  data <> [] -> Forall (fun v => 0 <= v) data -> 0 <= moving_average data window.
Proof.
  intros data window Hne H. unfold moving_average, Py.last_n.
  destruct (length data <? window)%nat; [apply mean_nonneg; assumption|].
  destruct (window =? 0)%nat eqn:Hw; apply mean_nonneg; try assumption.
  - apply skipn_nonempty. apply Nat.eqb_neq in Hw.
    destruct data; [contradiction|]. cbn [length]. lia.
  - apply Forall_skipn_R, H.
Qed.

Lemma exponential_smoothing_nonneg : forall data alpha,
  0 <= alpha <= 1 -> Forall (fun v => 0 <= v) data ->
  0 <= exponential_smoothing data alpha.
Proof.
  intros data alpha Ha H. unfold exponential_smoothing.
  destruct H as [|x0 rest Hx0 Hrest]; [lra|].
  revert x0 Hx0. induction Hrest as [|v rest Hv _ IH]; intros x0 Hx0; [exact Hx0|].
  cbn [fold_left]. apply IH. nra.
Qed.

Lemma arima_simple_nonneg : forall data,
  data <> [] -> Forall (fun v => 0 <= v) data -> 0 <= arima_simple data 1 1 1.
Proof.
  intros data Hne H. destruct (Nat.lt_ge_cases (length data) 2) as [Hs|Hl].
  - unfold arima_simple. change (Nat.max 1 1 + 1)%nat with 2%nat.
    apply Nat.ltb_lt in Hs. rewrite Hs. apply mean_nonneg; assumption.
  - rewrite arima_simple_two_or_more by exact Hl. apply Rmax_l.
Qed.

Lemma seasonal_decomposition_nonneg : forall data period,
  data <> [] -> Forall (fun v => 0 <= v) data ->
  0 <= sd_prediction (seasonal_decomposition_forecast data period).
Proof.
  intros data period Hne H. unfold seasonal_decomposition_forecast.
  destruct (length data <? period * 3)%nat; cbn [sd_prediction].
  - apply mean_nonneg; assumption.
  - apply Rmax_l.
Qed.

(** On a valid frame with non-negative consumption, every forecaster
    other than [holt_winters] predicts a non-negative value. *)
Lemma other_predictions_nonneg : forall lstsq df,
  (10 <= length df)%nat -> Forall (fun r => 0 <= consumption r) df ->
  0 <= moving_average (consumption_list df) 24 /\
  0 <= exponential_smoothing (consumption_list df) 0.3 /\
  0 <= arima_simple (consumption_list df) 1 1 1 /\
  0 <= lr_prediction (linear_regression_forecast lstsq df) /\
  0 <= sd_prediction (seasonal_decomposition_forecast (consumption_list df) 24).
Proof.
  intros lstsq df Hn Hdf.
  assert (Hc : Forall (fun v => 0 <= v) (consumption_list df)).
  { unfold consumption_list. apply Forall_map. exact Hdf. }
  assert (Hne : consumption_list df <> []).
  { unfold consumption_list. destruct df; [simpl in Hn; lia|discriminate]. }
  split; [apply moving_average_nonneg; assumption|].
  split; [apply exponential_smoothing_nonneg; [lra|assumption]|].
  split; [apply arima_simple_nonneg; assumption|].
  split; [apply lr_prediction_nonneg; assumption|].
  apply seasonal_decomposition_nonneg; assumption.
Qed.

(** C2, at the input that contradicts it: the series [step_down_series]
    has 48 non-negative values and [holt_winters], which returns
    level + trend + seasonal[0] without the clamp at 0 that the regression,
    seasonal and ARIMA forecasters apply, predicts a negative value on it
    (between -2.85 and -2.84). *)
Theorem holt_winters_prediction_negative :
  Forall (fun v => 0 <= v) step_down_series /\
  length step_down_series = 48%nat /\
  -2.85 < holt_winters step_down_series 24 0.3 0.1 0.1 < -2.84 /\
  holt_winters step_down_series 24 0.3 0.1 0.1 < 0.
Proof.
  assert (Hv := step_down_forecast_value).
  split; [|split; [|split]].
  - unfold step_down_series. apply Forall_app. split; apply Forall_forall;
      intros v Hin; apply repeat_spec in Hin; rewrite Hin; lra.
  - reflexivity.
  - exact Hv.
  - lra.
Qed.

(** ** Negative lower confidence bound *)

(** C10: there is a frame of at least 10 rows with non-negative
    consumption on which, whatever the regression solver returns, the six
    individual predictions are non-negative and the lower confidence
    bound, computed as the ensemble prediction minus 1.96 times the
    standard deviation of the six predictions with no clamp at 0, is
    negative. *)
Theorem confidence_lower_bound_negative :
  exists df,
    (10 <= length df)%nat /\
    Forall (fun r => 0 <= consumption r) df /\
    forall lstsq,
      let r := ensemble_forecast lstsq df in
      confidence_interval_lower r
      = ensemble_prediction r - 1.96 * Py.std (map snd (individual_predictions r)) /\
      Forall (fun p => 0 <= p) (map snd (individual_predictions r)) /\
      confidence_interval_lower r < 0.
Proof.
  exists spike_frame. split; [simpl; lia|]. split.
  - unfold spike_frame. apply Forall_app. split.
    + apply Forall_map, Forall_forall. intros h _. simpl. lra.
    + apply Forall_cons; [simpl; lra|apply Forall_nil].
  - intros lstsq r. split; [reflexivity|].
    destruct (spike_lower_negative lstsq) as (Hp & _ & Hlow). split; assumption.
Qed.

(** ** Instances *)


Lemma ensemble_weights_convex_witness :
  let r := ensemble_forecast null_solver spike_frame in
  let lo := list_min (map snd (individual_predictions r)) in
  let hi := list_max (map snd (individual_predictions r)) in
  let tol := 1 / 10 ^ 9 * (1 + Rmax (Rabs lo) (Rabs hi)) in
  lo - tol <= ensemble_prediction r /\ ensemble_prediction r <= hi + tol.
Proof.
  assert (H : (10 <= length spike_frame)%nat) by (simpl; lia).
  destruct (proj2 (proj2 (proj2 (ensemble_weights_convex null_solver))) spike_frame H)
    as (_ & _ & Hlo & Hhi).
  split; assumption.
Defined.

Lemma ensemble_confidence_interval_witness :
  let r := ensemble_forecast null_solver spike_frame in
  confidence_interval_lower r = ensemble_prediction r - 1.96 * prediction_variance r /\
  confidence_interval_upper r = ensemble_prediction r + 1.96 * prediction_variance r.
Proof.
  assert (H : (10 <= length spike_frame)%nat) by (simpl; lia).
  destruct (ensemble_confidence_interval null_solver spike_frame H)
    as (_ & Hlo & Hup & _).
  split; assumption.
Defined.

Lemma flat_frame_constant : Forall (fun r => consumption r = 5) flat_frame.
Proof.
  unfold flat_frame. apply Forall_map, Forall_forall. intros h _. reflexivity.
Qed.

Lemma null_solver_exact_on_flat_frame : solver_exact_on null_solver flat_frame.
Proof.
  unfold solver_exact_on, min_norm_least_squares, null_solver. cbv zeta.
  assert (Hz : Forall (fun v => v = 0) (repeat 0 (length features))).
  { apply Forall_forall. intros z Hz. apply repeat_spec in Hz. exact Hz. }
  split; [apply repeat_length|]. split.
  - intros w' _. rewrite rss_zero_targets; [apply rss_nonneg|].
    rewrite (consumption_constant flat_frame 5 flat_frame_constant).
    apply centre_constant. simpl. lia.
  - intros w' _ _. rewrite (dot_zeros_r _ _ Hz).
    unfold dot. apply sum_nonneg, Forall_map, Forall_forall.
    intros [a b] Hin. cbn [fst snd].
    assert (a = b); [|subst; apply (Rle_0_sqr b)].
    clear -Hin. induction w' as [|x w' IH]; simpl in Hin; [contradiction|].
    destruct Hin as [Heq|Hin]; [inversion Heq; reflexivity|apply IH, Hin].
Qed.

Lemma flat_frame_well_formed : Forall (well_formed_row (length flat_frame)) flat_frame.
Proof.
  change (length flat_frame) with 72%nat.
  assert (H72 : INR 72 = 72).
  { change (INR 72) with (INR (70 + 2)). rewrite plus_INR. simpl. lra. }
  unfold flat_frame. apply Forall_map, Forall_forall. intros h _.
  unfold well_formed_row. cbn [hour day_of_week day_of_year month temperature humidity].
  assert (Hm : (h mod 24 < 24)%nat) by (apply Nat.mod_upper_bound; lia).
  rewrite H72, (Rabs_pos_eq 20), (Rabs_pos_eq 50) by lra.
  repeat split; try lia; lra.
Qed.

Lemma constant_series_predictions_witness :
  Forall (fun kv => Rabs (snd kv - 5) <= 1 / 10 ^ 9 * (1 + 5))
         (predictions null_solver flat_frame).
Proof.
  apply (constant_series_predictions null_solver flat_frame 5).
  - lra.
  - simpl. lia.
  - change (length flat_frame) with 72%nat.
    change (INR 72) with (INR (70 + 2)). rewrite plus_INR.
    replace (INR 70 + INR 2) with 72 by (simpl; lra). lra.
  - exact flat_frame_well_formed.
  - exact flat_frame_constant.
  - exact null_solver_exact_on_flat_frame.
Defined.

(** * Further properties of the forecasters *)

(** ** Exponential smoothing *)

(** X1: appending one observation to a non-empty series applies the smoothing
    recurrence once: s' = alpha * x + (1 - alpha) * s. *)
Theorem exponential_smoothing_append : forall data x alpha,
  data <> [] ->
  exponential_smoothing (data ++ [x]) alpha
  = alpha * x + (1 - alpha) * exponential_smoothing data alpha.
Proof.
  intros [|x0 rest] x alpha H; [contradiction|].
  unfold exponential_smoothing. cbn [app].
  rewrite fold_left_app. reflexivity.
Qed.

Lemma exponential_smoothing_append_witness :
  exponential_smoothing ([4; 8] ++ [6]) 0.3
  = 0.3 * 6 + (1 - 0.3) * exponential_smoothing [4; 8] 0.3.
Proof.
  apply exponential_smoothing_append. discriminate.
Defined.

(** ** Moving average *)

(** X6: only the last [window] observations count: what comes before them
    does not change the moving average. *)
Theorem moving_average_ignores_older : forall older recent window,
  (1 <= window)%nat -> length recent = window ->
  moving_average (older ++ recent) window = Py.mean recent.
Proof.
  intros older recent window Hw Hlen. unfold moving_average, Py.last_n.
  rewrite length_app, Hlen.
  assert (Hb : (length older + window <? window)%nat = false)
    by (apply Nat.ltb_ge; lia).
  rewrite Hb.
  assert (Hz : (window =? 0)%nat = false) by (apply Nat.eqb_neq; lia).
  rewrite Hz.
  replace (length older + window - window)%nat with (length older + 0)%nat by lia.
  rewrite skipn_app, Nat.add_0_r, skipn_all.
  replace (length older - length older)%nat with 0%nat by lia.
  reflexivity.
Qed.

Lemma moving_average_ignores_older_witness :
  moving_average ([100; 200] ++ [4; 8; 6]) 3 = Py.mean [4; 8; 6].
Proof.
  apply moving_average_ignores_older; simpl; [lia|reflexivity].
Defined.

(** ** The simplified ARIMA forecaster, any orders *)

Lemma length_iter_diff : forall d l,
  length (Nat.iter d Py.diff l) = (length l - d)%nat.
Proof.
  induction d as [|d IH]; intros l.
  - simpl. lia.
  - change (Nat.iter (S d) Py.diff l) with (Py.diff (Nat.iter d Py.diff l)).
    rewrite length_diff, IH. lia.
Qed.

(** X8: whatever the orders p, d and q, a non-empty series that passes the
    first guard is still long enough after differencing: the branch that
    returns the last raw value never runs, every index the code reads is in
    range, and the forecast is the last value plus the autoregressive
    term, clamped below at 0. *)
Theorem arima_simple_past_guard : forall data p d q,
  data <> [] ->
  (Nat.max p q + d <= length data)%nat ->
  (Nat.max p q <= length (Nat.iter d Py.diff data))%nat /\
  (forall i, In i (seq 1 (Nat.min (p + 1) (length (Nat.iter d Py.diff data) + 1) - 1)) ->
     (1 <= i <= length (Nat.iter d Py.diff data))%nat) /\
  arima_simple data p d q
  = Rmax 0 (last data 0 + ar_term p (Nat.iter d Py.diff data)).
Proof.
  intros data p d q Hne H.
  assert (Hlen : (Nat.max p q <= length (Nat.iter d Py.diff data))%nat)
    by (rewrite length_iter_diff; lia).
  split; [exact Hlen|]. split.
  - intros i Hi. apply in_seq in Hi. lia.
  - unfold arima_simple, arima_after_differencing, Py.max0.
    assert (Hb : (length data <? Nat.max p q + d)%nat = false)
      by (apply Nat.ltb_ge; exact H).
    assert (Hb' : (length (Nat.iter d Py.diff data) <? Nat.max p q)%nat = false)
      by (apply Nat.ltb_ge; exact Hlen).
    rewrite Hb, Hb', from_end_1_last. reflexivity.
Qed.

Lemma arima_simple_past_guard_witness :
  arima_simple [3; 5; 9; 8; 12] 2 2 1
  = Rmax 0 (last [3; 5; 9; 8; 12] 0
            + ar_term 2 (Nat.iter 2 Py.diff [3; 5; 9; 8; 12])).
Proof.
  apply (arima_simple_past_guard [3; 5; 9; 8; 12] 2 2 1); [discriminate|simpl; lia].
Defined.

Lemma last_cons_nonempty : forall (h d : R) t, t <> [] -> last (h :: t) d = last t d.
Proof. intros h d [|x t] H; [contradiction|reflexivity]. Qed.

Lemma last_diff_two : forall older a b,
  last (Py.diff (older ++ [a; b])) 0 = b - a.
Proof.
  induction older as [|x [|y o] IH]; intros a b; try reflexivity.
  change (Py.diff ((x :: y :: o) ++ [a; b]))
    with ((y - x) :: Py.diff ((y :: o) ++ [a; b])).
  rewrite last_cons_nonempty; [apply IH|].
  intros Heq. apply (f_equal (@length R)) in Heq.
  rewrite length_diff, length_app in Heq. simpl in Heq. lia.
Qed.

(** X9: with the default orders the forecast depends on the last two
    observations only: it is the last one plus half of the last increase,
    clamped below at 0. *)
Theorem arima_simple_last_two : forall older a b,
  arima_simple (older ++ [a; b]) 1 1 1 = Rmax 0 (b + 0.5 * (b - a)).
Proof.
  intros older a b.
  rewrite arima_simple_two_or_more by (rewrite length_app; simpl; lia).
  rewrite last_diff_two.
  replace (older ++ [a; b]) with ((older ++ [a]) ++ [b])
    by (rewrite <- app_assoc; reflexivity).
  rewrite last_last. reflexivity.
Qed.

(** ** Holt-Winters: the loop *)

Lemma hw_step_seasonal_length : forall data L alpha beta gamma st i,
  length (hw_seasonal (hw_step data L alpha beta gamma st i))
  = length (hw_seasonal st).
Proof. intros. unfold hw_step. cbn [hw_seasonal]. apply length_set_item. Qed.

Lemma hw_loop_seasonal_length : forall data L alpha beta gamma idx st,
  length (hw_seasonal (fold_left (hw_step data L alpha beta gamma) idx st))
  = length (hw_seasonal st).
Proof.
  intros data L alpha beta gamma idx.
  induction idx as [|i idx IH]; intros st; [reflexivity|].
  cbn [fold_left]. rewrite IH. apply hw_step_seasonal_length.
Qed.

(** X10: the loop keeps the seasonal table at [season_length] entries, so every
    access [seasonal[i % season_length]] is in range, and every [data[i]]
    it reads is in range too. *)
Theorem holt_winters_accesses_in_range : forall data L alpha beta gamma k,
  (1 <= L)%nat ->
  let st := fold_left (hw_step data L alpha beta gamma) (seq L k) (hw_init data L) in
  length (hw_seasonal st) = L /\
  (forall i, (i mod L < length (hw_seasonal st))%nat) /\
  (forall i, In i (seq L (length data - L)) -> (i < length data)%nat).
Proof.
  intros data L alpha beta gamma k HL st.
  assert (Hlen : length (hw_seasonal st) = L).
  { subst st. rewrite hw_loop_seasonal_length. unfold hw_init. cbn [hw_seasonal].
    rewrite length_map, length_seq. reflexivity. }
  split; [exact Hlen|]. split.
  - intros i. rewrite Hlen. apply Nat.mod_upper_bound. lia.
  - intros i Hi. apply in_seq in Hi. lia.
Qed.

Lemma holt_winters_accesses_in_range_witness :
  length (hw_seasonal
            (fold_left (hw_step step_down_series 24 0.3 0.1 0.1) (seq 24 24)
                       (hw_init step_down_series 24))) = 24%nat.
Proof.
  apply (holt_winters_accesses_in_range step_down_series 24 0.3 0.1 0.1 24). lia.
Defined.

(** ** Seasonal decomposition: the long path *)

Lemma length_slice : forall a b (l : list R),
  length (Py.slice a b l) = Nat.min (b - a) (length l - a).
Proof. intros. unfold Py.slice. rewrite length_firstn, length_skipn. reflexivity. Qed.

Lemma length_sd_trend_list : forall data period,
  length (sd_trend_list data period) = length data.
Proof. intros. unfold sd_trend_list. rewrite length_map, length_seq. reflexivity. Qed.

Lemma length_sd_detrended : forall data period,
  length (sd_detrended data period) = length data.
Proof.
  intros. unfold sd_detrended.
  rewrite length_map, length_combine, length_sd_trend_list. apply Nat.min_id.
Qed.

(** X13: on a series of at least three periods nothing is averaged over an
    empty slice and no fallback runs: the trend has one value per
    observation (so more than one), every trend window holds at least one
    observation, and every seasonal slice [detrended[i::period]] holds at
    least three values. *)
Theorem seasonal_decomposition_slices : forall data period,
  (1 <= period)%nat -> (period * 3 <= length data)%nat ->
  length (sd_trend_list data period) = length data /\
  (1 < length (sd_trend_list data period))%nat /\
  (forall i, (i < length data)%nat ->
     (1 <= length (Py.slice (i - period / 2)
                            (Nat.min (length data) (i + period / 2 + 1)) data))%nat) /\
  (forall i, (i < period)%nat ->
     (3 <= length (Py.stride i period (sd_detrended data period)))%nat) /\
  (length data mod period < length (sd_seasonal_list data period))%nat.
Proof.
  intros data period Hp Hn.
  split; [apply length_sd_trend_list|].
  split; [rewrite length_sd_trend_list; lia|].
  split; [|split].
  - intros i Hi. rewrite length_slice. lia.
  - intros i Hi. unfold Py.stride.
    rewrite length_map, length_seq, length_sd_detrended.
    apply Nat.div_le_lower_bound; lia.
  - unfold sd_seasonal_list. rewrite length_map, length_seq.
    apply Nat.mod_upper_bound. lia.
Qed.

Lemma seasonal_decomposition_slices_witness :
  (1 < length (sd_trend_list (repeat 1%R 72) 24))%nat.
Proof.
  apply (seasonal_decomposition_slices (repeat 1%R 72) 24); simpl; lia.
Defined.

(** ** The combiner: keys *)

Section CombinerMore.

Variable lstsq : list (list R) -> list R -> list R.

(** X15: the prediction dictionary and the weight table have the same six
    keys, each once: the lookup [weights[method]] never misses and no
    weight is left unused. *)
Theorem ensemble_keys_match : forall df,
  NoDup (map fst (predictions lstsq df)) /\
  NoDup (map fst weights) /\
  (forall k, In k (map fst (predictions lstsq df)) <-> In k (map fst weights)).
Proof.
  intros df. unfold predictions, weights. cbn [map fst].
  split; [|split].
  - repeat (apply NoDup_cons; [simpl; intuition discriminate|]). apply NoDup_nil.
  - repeat (apply NoDup_cons; [simpl; intuition discriminate|]). apply NoDup_nil.
  - intros k. simpl. tauto.
Qed.

(** ** The regression forecaster *)







Lemma length_feature_row : forall r, length (feature_row r) = length features.
Proof. reflexivity. Qed.




Lemma dot_set_item : forall w u j v, (j < length w)%nat ->
  dot u (Py.set_item j v w) = dot u w + nth j u 0 * (v - nth j w 0).
Proof.
  unfold dot, Py.sum.
  induction w as [|c w IH]; intros u j v Hj; simpl in Hj; [lia|].
  destruct u as [|a u]; [destruct j; simpl; ring|].
  destruct j as [|j]; simpl.
  - ring.
  - rewrite IH by lia. ring.
Qed.

Lemma dot_self_set_zero : forall w j, (j < length w)%nat ->
  dot (Py.set_item j 0 w) (Py.set_item j 0 w) = dot w w - nth j w 0 * nth j w 0.
Proof.
  unfold dot, Py.sum.
  induction w as [|c w IH]; intros j Hj; simpl in Hj; [lia|].
  destruct j as [|j]; simpl.
  - ring.
  - rewrite IH by lia. ring.
Qed.

(** A column of zeros gets the coefficient 0 from a least-norm
    least-squares solution. *)
Lemma min_norm_zero_column : forall k X y w j,
  min_norm_least_squares k X y w -> (j < k)%nat ->
  (forall row, In row X -> nth j row 0 = 0) ->
  nth j w 0 = 0.
Proof.
  intros k X y w j (Hlen & _ & Hnorm) Hj Hcol.
  assert (Hrss : rss X y (Py.set_item j 0 w) = rss X y w).
  { unfold rss. f_equal. apply map_ext_in. intros [row v] Hin. cbn [fst snd].
    rewrite dot_set_item by lia.
    rewrite (Hcol row (in_combine_l _ _ _ _ Hin)). f_equal; ring. }
  assert (H := Hnorm (Py.set_item j 0 w)).
  rewrite length_set_item, Hrss, dot_self_set_zero in H by lia.
  specialize (H Hlen (Rle_refl _)). nra.
Qed.

Lemma to_frame_weather_columns : forall data row,
  data <> [] ->
  In row (centre_columns (length features) (feature_matrix (to_frame data))) ->
  nth 3 row 0 = 0 /\ nth 4 row 0 = 0.
Proof.
  intros data row Hne Hin. unfold centre_columns in Hin.
  apply in_map_iff in Hin. destruct Hin as (fr & <- & Hfr).
  unfold feature_matrix, to_frame in Hfr. rewrite map_map in Hfr.
  apply in_map_iff in Hfr. destruct Hfr as (point & <- & _).
  unfold column_means, column, feature_matrix, to_frame.
  cbn [length features seq map combine feature_row nth fst snd
       temperature humidity].
  rewrite !map_map. cbn [feature_row nth temperature humidity].
  rewrite !map_const, !mean_repeat by (destruct data; [contradiction|simpl; lia]).
  split; ring.
Qed.

(** X22: through [enhanced_prediction] the temperature and humidity columns
    are the constants 20 and 50, so an exact solver gives both features
    the coefficient 0: the regression details name the five features and
    report no weight for the two weather ones. *)
Theorem weather_defaults_carry_no_weight : forall raises data model_type r,
  solver_exact_on lstsq (to_frame data) ->
  enhanced_prediction lstsq raises data model_type = inr r ->
  exists importance,
    lr_feature_importance (linear_regression_details r) = Some importance /\
    map fst importance = features /\
    dict_get importance "temperature" = 0 /\
    dict_get importance "humidity" = 0.
Proof.
  intros raises data model_type r Hsolve Hr. unfold enhanced_prediction in Hr.
  destruct (length data <? 10)%nat eqn:Hb; [discriminate|].
  cbv zeta in Hr.
  destruct (raises (feature_matrix (to_frame data)) (consumption_list (to_frame data)));
    [discriminate|].
  apply Nat.ltb_ge in Hb. injection Hr as <-.
  unfold ensemble_forecast. cbn [linear_regression_details].
  unfold linear_regression_forecast.
  assert (Hb' : (length (to_frame data) <? 10)%nat = false).
  { apply Nat.ltb_ge. unfold to_frame. rewrite length_map. exact Hb. }
  rewrite Hb'. cbv zeta. cbn [lr_feature_importance].
  unfold LinearRegression_fit. cbv zeta. cbn [coef_].
  unfold solver_exact_on in Hsolve. cbv zeta in Hsolve.
  set (w := lstsq _ _) in *.
  assert (Hne : data <> []) by (destruct data; [simpl in Hb; lia|discriminate]).
  assert (H3 : nth 3 w 0 = 0).
  { apply (min_norm_zero_column _ _ _ _ 3 Hsolve); [simpl; lia|].
    intros row Hrow. apply (to_frame_weather_columns data row Hne Hrow). }
  assert (H4 : nth 4 w 0 = 0).
  { apply (min_norm_zero_column _ _ _ _ 4 Hsolve); [simpl; lia|].
    intros row Hrow. apply (to_frame_weather_columns data row Hne Hrow). }
  destruct Hsolve as (Hlen & _).
  destruct w as [|w0 [|w1 [|w2 [|w3 [|w4 [|w5 w']]]]]]; simpl in Hlen; try lia.
  eexists. split; [reflexivity|]. cbn [nth] in H3, H4. subst w3 w4.
  split; [reflexivity|]. split; reflexivity.
Qed.

(** X23: when the last row holds a valid hour (0 to 23), the row the
    regression predicts on is that row with its hour advanced to
    [(hour + 1) % 24], again between 0 and 23; the other features are
    kept, so after hour 23 the row says hour 0 of the same day. *)
Theorem next_hour_row_wraps : forall older r,
  (0 <= hour r <= 23)%Z ->
  let row := next_hour_row (older ++ [r]) in
  row = [IZR ((hour r + 1) mod 24); IZR (day_of_week r); IZR (day_of_year r);
         temperature r; humidity r] /\
  (0 <= (hour r + 1) mod 24 <= 23)%Z /\
  ((hour r < 23)%Z -> nth 0 row 0 = IZR (hour r + 1)) /\
  (hour r = 23%Z ->
   row = [0; IZR (day_of_week r); IZR (day_of_year r); temperature r; humidity r]).
Proof.
  intros older r Hh row. subst row. unfold next_hour_row. rewrite last_last.
  unfold feature_row. cbn [hour day_of_week day_of_year temperature humidity].
  split; [reflexivity|]. split.
  - assert (H := Z.mod_pos_bound (hour r + 1) 24 ltac:(lia)). lia.
  - split.
    + intros H. cbn [nth]. rewrite Z.mod_small by lia. reflexivity.
    + intros H. rewrite H. reflexivity.
Qed.

End CombinerMore.

(** ** The data generator *)

(** X24: every integer gets a season, and that season is a key of both
    [seasonal_patterns] and [season_temps], so neither lookup can miss; an
    integer that is no month at all (0, 13, -1, ...) is classified as
    autumn. *)
Theorem get_season_is_known : forall month,
  (exists pattern, dict_lookup seasonal_patterns (get_season month) = Some pattern) /\
  (exists temp, dict_lookup season_temps (get_season month) = Some temp) /\
  ((month < 1 \/ 12 < month)%Z -> get_season month = "autumn"%string).
Proof.
  intros month. unfold get_season.
  destruct (Z_in month [12; 1; 2]%Z) eqn:H1;
    [|destruct (Z_in month [3; 4; 5]%Z) eqn:H2;
      [|destruct (Z_in month [6; 7; 8]%Z) eqn:H3]].
  all: split; [eexists; reflexivity|split; [eexists; reflexivity|]].
  all: intros Hout; try reflexivity.
  all: exfalso; unfold Z_in in *; cbn [existsb] in *;
    repeat match goal with
    | H : (_ || _)%bool = true |- _ => apply orb_true_iff in H; destruct H as [H|H]
    | H : (_ =? _)%Z = true |- _ => apply Z.eqb_eq in H
    | H : false = true |- _ => discriminate H
    end; lia.
Qed.

Lemma get_season_is_known_witness : get_season 13 = "autumn"%string.
Proof.
  apply (proj2 (proj2 (get_season_is_known 13))). lia.
Defined.

(** X25: the simulated temperature always exists (the season lookup cannot
    miss) and, when the sampler keeps to its interval, stays within the
    season's base plus or minus half its range and the daily swing of 5
    degrees, both ends included; over all seasons that is from -5 to
    35. *)
Theorem simulate_temperature_bounds : forall uniform month hour,
  (forall low high, low < high -> low <= uniform low high < high) ->
  exists config t,
    dict_lookup season_temps (get_season month) = Some config /\
    simulate_temperature uniform month hour = Some t /\
    temp_base config - temp_range config / 2 - 5 <= t
      <= temp_base config + temp_range config / 2 + 5 /\
    -5 <= t <= 35.
Proof.
  intros uniform month hour Hu. unfold simulate_temperature, get_season.
  assert (Hsin := SIN_bound (2 * PI * (IZR hour - 6) / 24)).
  destruct (Z_in month [12; 1; 2]%Z);
    [|destruct (Z_in month [3; 4; 5]%Z); [|destruct (Z_in month [6; 7; 8]%Z)]].
  all: cbn [dict_lookup season_temps String.eqb Ascii.eqb Bool.eqb andb];
    do 2 eexists; split; [reflexivity|]; split; [reflexivity|];
    cbn [temp_base temp_range].
  all: match goal with
       | |- _ <= _ + ?draw + _ <= _ /\ _ =>
           match draw with
           | _ ?low ?high => assert (H := Hu low high ltac:(lra)); lra
           end
       end.
Qed.

Lemma simulate_temperature_bounds_witness :
  exists config t,
    dict_lookup season_temps (get_season 1) = Some config /\
    simulate_temperature lowest_sample 1 12 = Some t /\
    temp_base config - temp_range config / 2 - 5 <= t
      <= temp_base config + temp_range config / 2 + 5 /\
    -5 <= t <= 35.
Proof.
  apply (simulate_temperature_bounds lowest_sample 1 12).
  intros low high H. unfold lowest_sample. lra.
Defined.

(** ** Instances of the further properties *)

Lemma null_solver_exact_on_constant : forall df c,
  df <> [] -> Forall (fun r => consumption r = c) df ->
  solver_exact_on null_solver df.
Proof.
  intros df c Hne Hdf.
  unfold solver_exact_on, min_norm_least_squares, null_solver. cbv zeta.
  assert (Hz : Forall (fun v => v = 0) (repeat 0 (length features))).
  { apply Forall_forall. intros z Hz. apply repeat_spec in Hz. exact Hz. }
  split; [apply repeat_length|]. split.
  - intros w' _. rewrite rss_zero_targets; [apply rss_nonneg|].
    rewrite (consumption_constant df c Hdf).
    apply centre_constant. destruct df; [contradiction|simpl; lia].
  - intros w' _ _. rewrite (dot_zeros_r _ _ Hz).
    unfold dot. apply sum_nonneg, Forall_map, Forall_forall.
    intros [a b] Hin. cbn [fst snd].
    assert (a = b); [|subst; apply (Rle_0_sqr b)].
    clear -Hin. induction w' as [|x w' IH]; simpl in Hin; [contradiction|].
    destruct Hin as [Heq|Hin]; [inversion Heq; reflexivity|apply IH, Hin].
Qed.


Lemma ten_points_constant :
  Forall (fun r => consumption r = 1) (to_frame ten_points).
Proof.
  unfold to_frame, ten_points. rewrite map_map.
  apply Forall_map, Forall_forall. intros h _. reflexivity.
Qed.

Lemma weather_defaults_carry_no_weight_witness :
  exists importance,
    lr_feature_importance
      (linear_regression_details (ensemble_forecast null_solver (to_frame ten_points)))
    = Some importance /\
    map fst importance = features /\
    dict_get importance "temperature" = 0 /\
    dict_get importance "humidity" = 0.
Proof.
  apply (weather_defaults_carry_no_weight null_solver never_raises ten_points "ensemble").
  - apply (null_solver_exact_on_constant _ 1); [discriminate|exact ten_points_constant].
  - reflexivity.
Defined.

Lemma next_hour_row_wraps_witness :
  next_hour_row ([mkRow 3 22 4 200 7 20 50] ++ [mkRow 4 23 4 200 7 20 50])
  = [0; IZR 4; IZR 200; 20; 50].
Proof.
  apply (proj2 (proj2 (proj2
           (next_hour_row_wraps [mkRow 3 22 4 200 7 20 50] (mkRow 4 23 4 200 7 20 50)
              ltac:(simpl; lia))))).
  reflexivity.
Defined.

(** * Parameter extremes and short series *)

(** ** Smoothing at the ends of the parameter range *)

(** X4: with alpha = 1 the smoothed value is the last observation, with
    alpha = 0 it is the first one. *)
Theorem exponential_smoothing_extremes : forall older x first rest,
  exponential_smoothing (older ++ [x]) 1 = x /\
  exponential_smoothing (first :: rest) 0 = first.
Proof.
  intros older x first rest. split.
  - destruct older as [|x0 older]; [reflexivity|].
    unfold exponential_smoothing. cbn [app]. rewrite fold_left_app.
    cbn [fold_left]. ring.
  - unfold exponential_smoothing. revert first.
    induction rest as [|v rest IH]; intros first; [reflexivity|].
    cbn [fold_left]. replace (0 * v + (1 - 0) * first) with first by ring.
    apply IH.
Qed.

Section ShortSeries.

Variable lstsq : list (list R) -> list R -> list R.

(** X19: below 48 rows the Holt-Winters prediction is the exponential
    smoothing prediction and the seasonal prediction is the plain mean of
    the readings; below 24 rows the moving average is that same mean.  The
    ensemble then blends four distinct values: in the combiner's sum,
    exponential smoothing enters with the weights 0.20 and 0.25 and the
    mean with 0.15 twice. *)
Theorem ensemble_on_short_series : forall df,
  let c := consumption_list df in
  let r := ensemble_forecast lstsq df in
  let p := dict_get (individual_predictions r) in
  ((length df < 48)%nat ->
     p "holt_winters"%string = p "exponential_smoothing"%string /\
     p "exponential_smoothing"%string = exponential_smoothing c 0.3 /\
     p "seasonal_decomposition"%string = Py.mean c /\
     ensemble_prediction r
     = 0 + p "moving_average"%string * 0.15 + exponential_smoothing c 0.3 * 0.20
       + exponential_smoothing c 0.3 * 0.25 + p "arima"%string * 0.05
       + p "linear_regression"%string * 0.20 + Py.mean c * 0.15) /\
  ((length df < 24)%nat ->
     p "moving_average"%string = Py.mean c /\
     p "seasonal_decomposition"%string = p "moving_average"%string /\
     ensemble_prediction r
     = 0 + Py.mean c * 0.15 + exponential_smoothing c 0.3 * 0.20
       + exponential_smoothing c 0.3 * 0.25 + p "arima"%string * 0.05
       + p "linear_regression"%string * 0.20 + Py.mean c * 0.15).
Proof.
  intros df c r p. subst r p. unfold ensemble_forecast.
  cbn [ensemble_prediction individual_predictions].
  unfold predictions, weighted_sum, weights. fold c.
  cbn [fold_left dict_get String.eqb Ascii.eqb Bool.eqb fst snd].
  assert (Hlen : length c = length df) by (subst c; apply length_map).
  assert (Hhw : (length df < 48)%nat ->
            holt_winters c 24 0.3 0.1 0.1 = exponential_smoothing c 0.3).
  { intros H. apply holt_winters_below_two_seasons. simpl. lia. }
  assert (Hsd : (length df < 48)%nat ->
            sd_prediction (seasonal_decomposition_forecast c 24) = Py.mean c).
  { intros H. unfold seasonal_decomposition_forecast.
    assert (Hb : (length c <? 24 * 3)%nat = true) by (apply Nat.ltb_lt; simpl; lia).
    rewrite Hb. reflexivity. }
  split; intros H.
  - rewrite Hhw, Hsd by exact H. repeat split; reflexivity.
  - rewrite Hhw, Hsd by lia.
    assert (Hma : moving_average c 24 = Py.mean c).
    { unfold moving_average.
      assert (Hb : (length c <? 24)%nat = true) by (apply Nat.ltb_lt; lia).
      rewrite Hb. reflexivity. }
    rewrite Hma. repeat split; reflexivity.
Qed.

(** X20: on a valid series of fewer than 48 points with non-negative
    consumption no forecaster goes below 0, and neither does the
    ensemble prediction. *)
Theorem short_series_predictions_nonneg : forall df,
  (10 <= length df < 48)%nat ->
  Forall (fun r => 0 <= consumption r) df ->
  let r := ensemble_forecast lstsq df in
  Forall (fun kv => 0 <= snd kv) (individual_predictions r) /\
  0 <= ensemble_prediction r.
Proof.
  intros df Hn Hdf r. subst r. unfold ensemble_forecast.
  cbn [individual_predictions ensemble_prediction].
  destruct (other_predictions_nonneg lstsq df ltac:(lia) Hdf)
    as (Hma & Hes & Har & Hlr & Hsd).
  assert (Hhw : 0 <= holt_winters (consumption_list df) 24 0.3 0.1 0.1).
  { rewrite holt_winters_below_two_seasons; [exact Hes|].
    unfold consumption_list. rewrite length_map. simpl. lia. }
  split.
  - unfold predictions. cbv zeta.
    repeat (apply Forall_cons; [assumption|]). apply Forall_nil.
  - unfold predictions. rewrite weighted_sum_six. lra.
Qed.

End ShortSeries.

Lemma ensemble_on_short_series_witness :
  let r := ensemble_forecast null_solver spike_frame in
  dict_get (individual_predictions r) "seasonal_decomposition"
  = dict_get (individual_predictions r) "moving_average".
Proof.
  apply (proj2 (ensemble_on_short_series null_solver spike_frame)). simpl. lia.
Defined.

Lemma short_series_predictions_nonneg_witness :
  0 <= ensemble_prediction (ensemble_forecast null_solver spike_frame).
Proof.
  apply (short_series_predictions_nonneg null_solver spike_frame).
  - simpl. lia.
  - unfold spike_frame. apply Forall_app. split.
    + apply Forall_map, Forall_forall. intros h _. simpl. lra.
    + apply Forall_cons; [simpl; lra|apply Forall_nil].
Defined.

(** * Rounding and overflow in binary64 *)

(** Adding copies of 1e308 in any order: none gives 0, one gives 1e308,
    two or more overflow to infinity. *)
Lemma sums_of_huge : forall l s, Binary64.sums_to l s ->
  forall n, l = repeat Binary64.huge n ->
  s = match n with
      | O => PrimFloat.zero
      | S O => Binary64.huge
      | S (S _) => PrimFloat.infinity
      end.
Proof.
  intros l s H. induction H as [|x|l1 l2 s1 s2 H1 IH1 H2 IH2|l l' s Hp H IH]; intros n Hn.
  - destruct n; [reflexivity|discriminate].
  - destruct n as [|[|n]]; try discriminate.
    injection Hn as ->. reflexivity.
  - symmetry in Hn. destruct (repeat_eq_app _ _ _ _ Hn) as (E1 & E2).
    assert (Hlen : n = (length l1 + length l2)%nat).
    { apply (f_equal (@length PrimFloat.float)) in Hn.
      rewrite repeat_length, length_app in Hn. exact Hn. }
    rewrite (IH1 _ (eq_sym E1)), (IH2 _ (eq_sym E2)), Hlen.
    destruct (length l1) as [|[|n1]], (length l2) as [|[|n2]]; reflexivity.
  - apply IH. subst l'. apply (Permutation_repeat _ _ Hp).
Qed.

(** Some order of addition always exists. *)
Lemma sums_to_total : forall l, exists s, Binary64.sums_to l s.
Proof.
  induction l as [|x l [s Hs]].
  - eexists. apply Binary64.sum_nil.
  - eexists. apply (Binary64.sum_app [x] l _ _ (Binary64.sum_one x) Hs).
Qed.


(** The claim C6 fails at six predictions of 13.0: the combiner's sum,
    replayed in binary64, is 12.999999999999998, below the least of the
    six predictions. *)
Lemma ensemble_below_minimum_binary64 :
  let preds := Binary64.agreeing_predictions Binary64.thirteen in
  map fst preds = map fst (predictions null_solver spike_frame) /\
  Binary64.weighted_sum preds Binary64.weight_table = Binary64.below_thirteen /\
  Binary64.list_min (map snd preds) = Binary64.thirteen /\
  PrimFloat.ltb (Binary64.weighted_sum preds Binary64.weight_table)
                (Binary64.list_min (map snd preds)) = true.
Proof. repeat split. Qed.

(** The claim C8 fails at the constant 1e308: on a series of 72 such
    readings the moving average, in whatever order numpy adds the last 24
    of them, is infinity, which is within no tolerance of 1e308. *)
Lemma constant_series_overflow_binary64 :
  (exists m, Binary64.moving_average_returns (repeat Binary64.huge 72) 24 m) /\
  (forall m, Binary64.moving_average_returns (repeat Binary64.huge 72) 24 m ->
     m = PrimFloat.infinity /\
     Binary64.within m Binary64.huge Binary64.huge = false).
Proof.
  assert (Hlast : Binary64.last_n 24 (repeat Binary64.huge 72) = repeat Binary64.huge 24)
    by reflexivity.
  unfold Binary64.moving_average_returns.
  replace (length (repeat Binary64.huge 72) <? 24)%nat with false by reflexivity.
  rewrite Hlast. split.
  - destruct (sums_to_total (repeat Binary64.huge 24)) as [s Hs].
    eexists. exists s. split; [exact Hs|reflexivity].
  - intros m (s & Hs & ->).
    rewrite (sums_of_huge _ _ Hs 24 eq_refl). split; reflexivity.
Qed.
